(** * Renamer.go: a shallow embedding of the batch renamer and its pipeline

    The repository carries two copies of the program: [Renamer.go]
    (2013-2014) and a later revision (2013-2020).  They differ in two places
    only (the body of [lowercaseExtension] and the brace structure of the
    regexp loop of [renameFiles]); both are embedded, selected by a
    [Revision].

    The operating system and Go's [regexp] package are taken through two
    interfaces ([FileSystem], [Regexp]); a small table-backed file system and
    a pattern fragment instantiate them for the concrete runs. *)

From Stdlib Require Import String Ascii List ZArith Lia Bool DecimalString.
From Stdlib Require DecimalN.
Import ListNotations.
Local Open Scope string_scope.
Local Open Scope Z_scope.

(** ** Go's [int] (64-bit targets) *)

Module GoInt.

Definition bits : Z := 64.
Definition maxInt : Z := 2 ^ (bits - 1) - 1.
Definition minInt : Z := - 2 ^ (bits - 1).

(** Two's-complement wrap-around of a mathematical integer. *)
Definition wrap (z : Z) : Z := (z + 2 ^ (bits - 1)) mod 2 ^ bits - 2 ^ (bits - 1).

Definition add (a b : Z) : Z := wrap (a + b).

Definition inRange (z : Z) : Prop := minInt <= z <= maxInt.

End GoInt.

(** ** Go's [strings] and [path/filepath] (Unix), on byte strings *)

Module GoStrings.

Definition chars := list_ascii_of_string.
Definition str := string_of_list_ascii.

Definition HasPrefix (s p : string) : bool := String.prefix p s.

Definition HasSuffix (s suf : string) : bool :=
  String.prefix (str (rev (chars suf))) (str (rev (chars s))).

(** [strings.TrimSuffix]: [s] without the trailing [suf], if it ends with it. *)
Definition TrimSuffix (s suf : string) : string :=
  if HasSuffix s suf
  then String.substring 0 (String.length s - String.length suf) s
  else s.

Definition isUpperAscii (c : ascii) : bool :=
  let n := nat_of_ascii c in (Nat.leb 65 n && Nat.leb n 90)%bool.

Definition isLowerAscii (c : ascii) : bool :=
  let n := nat_of_ascii c in (Nat.leb 97 n && Nat.leb n 122)%bool.

Definition lowerByte (c : ascii) : ascii :=
  if isUpperAscii c then ascii_of_nat (nat_of_ascii c + 32) else c.

Definition upperByte (c : ascii) : ascii :=
  if isLowerAscii c then ascii_of_nat (nat_of_ascii c - 32) else c.

(** [strings.ToLower] / [strings.ToUpper] on ASCII text.  Bytes above 127
    (the encodings of non-ASCII runes, which Go maps through its Unicode
    tables) are kept as they are. *)
Definition ToLower (s : string) : string := str (map lowerByte (chars s)).
Definition ToUpper (s : string) : string := str (map upperByte (chars s)).

(** [strings.Join]. *)
Fixpoint Join (elems : list string) (sep : string) : string :=
  match elems with
  | [] => ""
  | [e] => e
  | e :: rest => e ++ sep ++ Join rest sep
  end.

(** Decimal digits of a natural number. *)
Definition digits (n : N) : string := NilZero.string_of_uint (N.to_uint n).

Fixpoint zeros (n : nat) : string :=
  match n with O => "" | S k => String "0" (zeros k) end.

Definition padLeft (width : nat) (s : string) : string :=
  zeros (width - String.length s) ++ s.

(** The verb [%03d]: zero padding to width 3, the sign counted in the width. *)
Definition fmt_03d (z : Z) : string :=
  if z <? 0 then "-" ++ padLeft 2 (digits (Z.to_N (- z)))
  else padLeft 3 (digits (Z.to_N z)).

End GoStrings.

Module filepath.
Import GoStrings.

Definition Separator : ascii := "/"%char.

Definition IsPathSeparator (c : ascii) : bool := Ascii.eqb c Separator.

(** The path elements between separators: ["a//b"] gives ["a"; ""; "b"]. *)
Fixpoint elements (cur : list ascii) (cs : list ascii) : list string :=
  match cs with
  | [] => [str (rev cur)]
  | c :: cs' =>
      if IsPathSeparator c then str (rev cur) :: elements [] cs'
      else elements (c :: cur) cs'
  end.

(** One element of [Clean]'s scan; [out] holds the elements written so far,
    last one first. *)
Definition cleanStep (rooted : bool) (out : list string) (e : string) : list string :=
  if String.eqb e "" then out
  else if String.eqb e "." then out
  else if String.eqb e ".." then
    match out with
    | top :: below => if String.eqb top ".." then e :: out else below
    | [] => if rooted then out else [e]
    end
  else e :: out.

(** [filepath.Clean]: the shortest equivalent path by lexical processing. *)
Definition Clean (path : string) : string :=
  match chars path with
  | [] => "."
  | c :: _ =>
      let rooted := IsPathSeparator c in
      let out := fold_left (cleanStep rooted) (elements [] (chars path)) [] in
      let body := GoStrings.Join (rev out) "/" in
      if rooted then "/" ++ body
      else if String.eqb body "" then "." else body
  end.

Definition IsAbs (path : string) : bool := HasPrefix path "/".

Fixpoint dropSeparators (r : list ascii) : list ascii :=
  match r with
  | c :: r' => if IsPathSeparator c then dropSeparators r' else r
  | [] => []
  end.

(** The bytes after the last separator, read from the reversed path. *)
Fixpoint lastElement (r : list ascii) (acc : list ascii) : list ascii :=
  match r with
  | c :: r' => if IsPathSeparator c then acc else lastElement r' (c :: acc)
  | [] => acc
  end.

(** The reversed path up to and including its last separator. *)
Fixpoint upToLastSeparator (r : list ascii) : list ascii :=
  match r with
  | c :: r' => if IsPathSeparator c then r else upToLastSeparator r'
  | [] => []
  end.

(** [filepath.Base]: the last element of the path. *)
Definition Base (path : string) : string :=
  if String.eqb path "" then "."
  else
    let last := str (lastElement (dropSeparators (rev (chars path))) []) in
    if String.eqb last "" then "/" else last.

(** [filepath.Dir]: all but the last element, cleaned. *)
Definition Dir (path : string) : string :=
  Clean (str (rev (upToLastSeparator (rev (chars path))))).

Fixpoint extScan (r : list ascii) (acc : list ascii) : list ascii :=
  match r with
  | c :: r' =>
      if IsPathSeparator c then []
      else if Ascii.eqb c "."%char then c :: acc
      else extScan r' (c :: acc)
  | [] => []
  end.

(** [filepath.Ext]: the suffix from the last dot of the last element. *)
Definition Ext (path : string) : string := str (extScan (rev (chars path)) []).

(** [filepath.Join]: the elements from the first non-empty one, joined and
    cleaned; the empty string when there is none. *)
Fixpoint Join (elem : list string) : string :=
  match elem with
  | [] => ""
  | e :: rest =>
      if String.eqb e "" then Join rest
      else Clean (GoStrings.Join elem "/")
  end.

End filepath.

(** ** The operating system and the regexp package, as interfaces *)

Inductive Result (A : Type) : Type :=
| Ok (a : A)
| Err (msg : string).
Arguments Ok {A} a.
Arguments Err {A} msg.

Definition succeeded {A} (r : Result A) : bool :=
  match r with Ok _ => true | Err _ => false end.

(** The handle of an [Ok], [nil] after an error. *)
Definition handle {A} (r : Result A) : option A :=
  match r with Ok a => Some a | Err _ => None end.

(** What the program reads of an [os.FileInfo]. *)
Record FileInfo : Type := { Name : string; IsDir : bool }.

(** An open file is known by the path it was opened with. *)
Definition File : Type := string.

(** The system calls the program makes.  The reading calls leave the file
    system as it is; the writing calls return the new one together with their
    error value. *)
Class FileSystem (FS : Type) : Type := {
  os_Lstat : FS -> string -> Result FileInfo;
  os_Getwd : FS -> Result string;
  os_Open : FS -> string -> Result File;
  file_Readdir : FS -> File -> Result (list FileInfo);
  os_Create : FS -> string -> FS * Result File;
  io_Copy : FS -> option File -> option File -> FS * Result unit;
  os_Rename : FS -> string -> string -> FS * Result unit
}.

(** [regexp.Compile] and the compiled pattern's [MatchString]. *)
Class Regexp (R : Type) : Type := {
  regexp_Compile : string -> Result R;
  MatchString : R -> string -> bool
}.

(** ** Configuration: the package-level flag variables after [flag.Parse] *)

Record Config : Type := {
  regexpArg : string;
  prefixArg : string;
  suffixArg : string;
  indexArg : string;
  numArg : Z;
  targetArg : string;
  lowerExtArg : bool;
  lowerArg : bool;
  upperArg : bool;
  copyArg : bool;
  dryrunArg : bool;
  forceArg : bool;
  recursiveArg : bool
}.

(** The defaults declared in [flagsInit]. *)
Definition defaults : Config :=
  {| regexpArg := ""; prefixArg := ""; suffixArg := ""; indexArg := "";
     numArg := 1; targetArg := "."; lowerExtArg := false; lowerArg := false;
     upperArg := false; copyArg := false; dryrunArg := false;
     forceArg := false; recursiveArg := false |}.

(** The two copies of the program in the repository. *)
Inductive Revision : Type :=
| Renamer_go   (* Renamer.go, 2013-2014 *)
| Revised.     (* the 2013-2020 copy *)

Definition LF : string := String "010"%char "".

Definition usageMessage : string := "
renamer.go (-p <prefix>|-s <suffix>|-i <indexname> -I <num>|-e|-l|-u) [-x <regexp>] [-t <target_dir>] -[cnr]

renamer.go will rename all files matching a regexp or all files in the 
given directory (and optionally in all its subdirectories) by the flag 
chosen. It can add a prefix/suffix, rename according to a 
<name><numeric_index> pattern, make all low/uppercase, lowercase the 
extension and copy files somewhere else leaving the originals untouched.

Arguments:

	-prefix|-p <prefix>
		Renames matching files by adding a prefix

	-suffix|-s <suffix>
		Renames matching files by adding a suffix

	-index|-i <name>
		Renames matching files to <name><num>. Requires '-I'

	-startnumber|-I <num>
		The <num> to start renaming in index mode. Requires '-i'

	-regexp|-x <regexp>
		The regular expression for matching files. Use double quotes 
		around it

	-target-dir|-t <path>
		The directory where to rename/copy the files. Default is the 
		current directory

	-copy|-c
		Copy instead of renaming

	-lower-extension|-e
		Lowercase the extension

	-lowercase|-l
		Lowercase the new filename. It is mutually exclusive with 
		'-u'

	-uppercase|-u
		Uppercase the new filename. It is mutually exclusive with 
		'-l'

	-dry-run|-n
		List files but don't actually perform any action

	-force|-f
		Overwrite existing files. The default is to not copy/rename 
		if the target file already exists

	-recursive|-r
		Operate recursively on all subdirectories of target-dir
".

(** ** The process: file system, the two output streams, the failure counter *)

Record World (FS : Type) : Type := {
  fs : FS;
  stdout : list string;
  stderr : list string;
  operationSuccessful : Z
}.
Arguments fs {FS} _.
Arguments stdout {FS} _.
Arguments stderr {FS} _.
Arguments operationSuccessful {FS} _.

(** A process started on [disk]: nothing printed, counter at Go's zero value. *)
Definition boot {FS} (disk : FS) : World FS :=
  {| fs := disk; stdout := []; stderr := []; operationSuccessful := 0 |}.

(** A computation either comes back with a value or ends the process
    ([os.Exit]) with a status. *)
Inductive Outcome (FS A : Type) : Type :=
| Returned (a : A) (w : World FS)
| Exited (code : Z) (w : World FS).
Arguments Returned {FS A} a w.
Arguments Exited {FS A} code w.

Definition Run (FS A : Type) : Type := World FS -> Outcome FS A.

Definition ret {FS A} (a : A) : Run FS A := fun w => Returned a w.

Definition bind {FS A B} (c : Run FS A) (k : A -> Run FS B) : Run FS B :=
  fun w =>
    match c w with
    | Returned a w' => k a w'
    | Exited code w' => Exited code w'
    end.

Declare Scope run_scope.
Delimit Scope run_scope with run.
Notation "x <- c ;; k" := (bind c (fun x => k))
  (at level 61, c at next level, right associativity) : run_scope.
Notation "' pat <- c ;; k" := (bind c (fun x => match x with pat => k end))
  (at level 61, pat pattern, c at next level, right associativity) : run_scope.
Notation "c ;; k" := (bind c (fun _ => k))
  (at level 61, right associativity) : run_scope.
Local Open Scope run_scope.

(** The world a computation leaves behind, however it ended. *)
Definition final {FS A} (o : Outcome FS A) : World FS :=
  match o with Returned _ w => w | Exited _ w => w end.

Definition value {FS A} (o : Outcome FS A) : option A :=
  match o with Returned a _ => Some a | Exited _ _ => None end.

Definition status {FS A} (o : Outcome FS A) : option Z :=
  match o with Returned _ _ => None | Exited code _ => Some code end.

(** [for _, x := range xs { body }], with the local variables the body
    assigns carried in [s].  Go evaluates the range expression once: the
    loop runs over the elements [xs] had on entry. *)
Fixpoint forRange {FS A S} (xs : list A) (s : S) (body : S -> A -> Run FS S) : Run FS S :=
  match xs with
  | [] => ret s
  | x :: rest => s' <- body s x ;; forRange rest s' body
  end.

(** ** The program *)

Section Program.

Context {FS : Type} {OS : FileSystem FS} {R : Type} {RE : Regexp R}.

Local Abbreviation Run := (Run FS).

(** *** Primitive actions *)

(** [fmt.Fprintf(os.Stdout, ...)] with the text already formatted. *)
Definition Fprintf_Stdout (text : string) : Run unit :=
  fun w => Returned tt {| fs := fs w; stdout := stdout w ++ [text];
                          stderr := stderr w;
                          operationSuccessful := operationSuccessful w |}.

(** [fmt.Fprintf(os.Stderr, ...)] with the text already formatted.  Where the
    program passes an error's text as the format itself, the text is taken as
    printed. *)
Definition Fprintf_Stderr (text : string) : Run unit :=
  fun w => Returned tt {| fs := fs w; stdout := stdout w;
                          stderr := stderr w ++ [text];
                          operationSuccessful := operationSuccessful w |}.

Definition os_Exit {A} (code : Z) : Run A := fun w => Exited code w.

(** [operationSuccessful = operationSuccessful + n]. *)
Definition addOperationSuccessful (n : Z) : Run unit :=
  fun w => Returned tt {| fs := fs w; stdout := stdout w; stderr := stderr w;
                          operationSuccessful := GoInt.add (operationSuccessful w) n |}.

Definition getOperationSuccessful : Run Z :=
  fun w => Returned (operationSuccessful w) w.

(** A reading system call. *)
Definition reading {A} (call : FS -> A) : Run A :=
  fun w => Returned (call (fs w)) w.

(** A writing system call. *)
Definition writing {A} (call : FS -> FS * A) : Run A :=
  fun w => let '(disk, a) := call (fs w) in
           Returned a {| fs := disk; stdout := stdout w; stderr := stderr w;
                         operationSuccessful := operationSuccessful w |}.

(** [filepath.Abs]. *)
Definition filepath_Abs (path : string) : Run (Result string) :=
  if filepath.IsAbs path then ret (Ok (filepath.Clean path))
  else
    wd <- reading os_Getwd ;;
    match wd with
    | Err e => ret (Err e)
    | Ok wd => ret (Ok (filepath.Join [wd; path]))
    end.

(** *** printUsage, flagsInit *)

(** Print a message and the usage instructions; [os.Exit(2)] does not come
    back, so whatever follows a call in the source (a [return 1]) is never
    reached. *)
Definition printUsage {A} (msg : string) : Run A :=
  Fprintf_Stderr (msg ++ LF) ;;
  Fprintf_Stderr usageMessage ;;
  os_Exit 2.

Definition isEmpty (s : string) : bool := String.eqb s "".

(** The check [flagsInit] makes once the flags are parsed. *)
Definition flagsInit (cfg : Config) : Run unit :=
  if isEmpty (regexpArg cfg) && isEmpty (prefixArg cfg) && isEmpty (suffixArg cfg)
     && isEmpty (indexArg cfg) && Bool.eqb (lowerExtArg cfg) false
     && Bool.eqb (lowerArg cfg) false && Bool.eqb (upperArg cfg) false
  then printUsage "At least one of the mandatory actions must be given, nothing to do..."
  else ret tt.

(** *** writeFile *)

(** Lines 163-167: the check on the new file name. *)
Definition overwriteGuard (cfg : Config) (newname : string) : Run unit :=
  lstat <- reading (fun disk => os_Lstat disk newname) ;;
  if succeeded lstat && Bool.eqb (forceArg cfg) false then
    Fprintf_Stderr ("File " ++ newname ++ " already exist! Use -force to override it" ++ LF) ;;
    addOperationSuccessful 1
  else ret tt.

(** Lines 173-191: the copy. *)
Definition copyFile (oldname newname : string) : Run unit :=
  copyf <- writing (fun disk => os_Create disk newname) ;;
  match copyf with
  | Err e => Fprintf_Stderr e ;; addOperationSuccessful 1
  | Ok _ => ret tt
  end ;;
  originalf <- reading (fun disk => os_Open disk oldname) ;;
  match originalf with
  | Err e => Fprintf_Stderr e ;; addOperationSuccessful 1
  | Ok _ => ret tt
  end ;;
  copied <- writing (fun disk => io_Copy disk (handle copyf) (handle originalf)) ;;
  match copied with
  | Err e =>
      Fprintf_Stderr ("An error occurred during the copy of " ++ oldname ++ " to " ++ newname ++ LF) ;;
      Fprintf_Stderr e ;;
      addOperationSuccessful 1
  | Ok _ => Fprintf_Stdout ("Copying " ++ oldname ++ " to " ++ newname ++ LF)
  end.

(** Lines 193-200: the rename. *)
Definition renameFile (oldname newname : string) : Run unit :=
  renamed <- writing (fun disk => os_Rename disk oldname newname) ;;
  match renamed with
  | Err e =>
      Fprintf_Stderr ("An error occurred during the renaming of " ++ oldname ++ " to " ++ newname ++ LF) ;;
      Fprintf_Stderr e ;;
      addOperationSuccessful 1
  | Ok _ => Fprintf_Stdout ("Renaming " ++ oldname ++ " to " ++ newname ++ LF)
  end.

(** Lines 168-202: dry-run, copy or rename. *)
Definition perform (cfg : Config) (oldname newname : string) : Run unit :=
  if dryrunArg cfg then
    Fprintf_Stdout ("Renaming " ++ oldname ++ " to " ++ newname ++ " (dry-run)" ++ LF) ;;
    addOperationSuccessful 0
  else if copyArg cfg then copyFile oldname newname
  else renameFile oldname newname.

(** Write a renamed or a copy of a file to disk. *)
Definition writeFile (cfg : Config) (oldname newname : string) : Run unit :=
  overwriteGuard cfg newname ;;
  perform cfg oldname newname.

(** *** The transformers *)

(** Add a prefix string to a name. *)
Definition addPrefix (cfg : Config) (names : list string) (prefix : string) : Run Z :=
  forRange names tt (fun _ f =>
    let dirname := filepath.Dir f in
    let finalname := filepath.Join [dirname; prefix ++ filepath.Base f] in
    writeFile cfg f finalname) ;;
  ret 0.

(** Add a suffix string to a name. *)
Definition addSuffix (cfg : Config) (names : list string) (suffix : string) : Run Z :=
  forRange names tt (fun _ f =>
    let ext := filepath.Ext f in
    let dirname := filepath.Dir f in
    let justname := GoStrings.TrimSuffix (filepath.Base f) ext in
    let finalname := filepath.Join [dirname; justname ++ suffix ++ ext] in
    writeFile cfg f finalname) ;;
  ret 0.

(** [fmt.Sprintf("%s/%s%03d%s", dirname, newname, count, ext)]. *)
Definition indexFormat (dirname newname : string) (count : Z) (ext : string) : string :=
  dirname ++ "/" ++ newname ++ GoStrings.fmt_03d count ++ ext.

(** Rename a slice of filenames to <newname><count>.<extension>; the loop
    carries [count]. *)
Definition indexName (cfg : Config) (names : list string) (newname : string) (count : Z) : Run Z :=
  forRange names count (fun count f =>
    let ext := filepath.Ext f in
    let dirname := filepath.Dir f in
    let finalname := indexFormat dirname newname count ext in
    writeFile cfg f finalname ;;
    ret (GoInt.add count 1)) ;;
  ret 0.

(** The name [lowercaseExtension] computes for a file. *)
Definition lowercaseExtensionName (f : string) : string :=
  let dirname := filepath.Dir f in
  let basename := filepath.Base f in
  let ext := filepath.Ext f in
  filepath.Join [dirname; GoStrings.TrimSuffix basename ext
                          ++ GoStrings.ToLower (GoStrings.TrimSuffix ext basename)].

(** Make extensions lowercase.  In [Renamer.go] the loop body ends once
    [finalname] is assigned; the revised copy goes on to call [writeFile]. *)
Definition lowercaseExtension (rev : Revision) (cfg : Config) (names : list string) : Run Z :=
  forRange names tt (fun _ f =>
    let finalname := lowercaseExtensionName f in
    match rev with
    | Renamer_go => ret tt
    | Revised => writeFile cfg f finalname
    end) ;;
  ret 0.

(** Make filenames all lowercase. *)
Definition lowercaseFiles (cfg : Config) (names : list string) : Run Z :=
  forRange names tt (fun _ f =>
    let dirname := filepath.Dir f in
    let finalname := filepath.Join [dirname; GoStrings.ToLower (filepath.Base f)] in
    writeFile cfg f finalname) ;;
  ret 0.

(** Make filenames all uppercase. *)
Definition uppercaseFiles (cfg : Config) (names : list string) : Run Z :=
  forRange names tt (fun _ f =>
    let dirname := filepath.Dir f in
    let finalname := filepath.Join [dirname; GoStrings.ToUpper (filepath.Base f)] in
    writeFile cfg f finalname) ;;
  ret 0.

(** *** getFilesFromDir *)

(** Lines 316-322: directories and files of a listing, each joined to the
    directory's path. *)
Definition separate (complete_path : string) (filesindir : list FileInfo)
  : list string * list string :=
  fold_left
    (fun '(alldirectories, allfiles) f =>
       if IsDir f
       then ((alldirectories ++ [filepath.Join [complete_path; Name f]])%list, allfiles)
       else (alldirectories, (allfiles ++ [filepath.Join [complete_path; Name f]])%list))
    filesindir ([], []).

(** Get all files and directories: (directories, files). *)
Definition getFilesFromDir (dirname : string) : Run (list string * list string) :=
  dirinfo <- reading (fun disk => os_Lstat disk dirname) ;;
  match dirinfo with
  | Err lerr => Fprintf_Stderr lerr ;; ret ([], [])
  | Ok dirinfo =>
      complete_path <-
        (if filepath.IsAbs dirname && IsDir dirinfo then ret dirname
         else
           abs_path <- filepath_Abs dirname ;;
           match abs_path with
           | Err e => Fprintf_Stderr e ;; ret ""
           | Ok p => ret p
           end) ;;
      dir <- reading (fun disk => os_Open disk complete_path) ;;
      match dir with
      | Err _ =>
          Fprintf_Stderr ("Target directory " ++ complete_path
                          ++ " is not a directory or can't be accessed" ++ LF) ;;
          ret ([], [])
      | Ok dir =>
          filesindir <- reading (fun disk => file_Readdir disk dir) ;;
          match filesindir with
          | Err read_err => Fprintf_Stderr read_err ;; ret ([], [])
          | Ok filesindir => ret (separate complete_path filesindir)
          end
      end
  end.

(** *** renameFiles *)

(** Lines 336-352: with the recursive switch, list every directory of [dir]
    and append what is found to [dir] and [files].  The [range] runs over the
    directories [dir] held on entry; a [nil] slice and an empty one both give
    no iteration, so the [dir != nil] test needs no case of its own. *)
Definition descend (cfg : Config) (dir files : list string)
  : Run (list string * list string) :=
  if Bool.eqb (recursiveArg cfg) true then
    forRange dir (dir, files) (fun '(dir, files) d =>
      '(nd, nf) <- getFilesFromDir d ;;
      ret ((dir ++ nd)%list, (files ++ nf)%list))
  else ret (dir, files).

(** Lines 355-372: the files whose base name matches the regexp.  In the
    revised copy the error branch is closed only after the match test, which
    therefore follows its [return 1] and never runs. *)
Definition matchFiles (rev : Revision) (cfg : Config) (files : list string)
  : Run (list string) :=
  if negb (isEmpty (regexpArg cfg)) then
    forRange files [] (fun matchingfiles f =>
      let basename := filepath.Base f in
      match regexp_Compile (regexpArg cfg) with
      | Err _ =>
          Fprintf_Stderr ("Invalid regexp: " ++ regexpArg cfg ++ LF) ;;
          printUsage "You must give a valid regexp (or none, to operate on all files). Alternatively, add -force to force renaming all files, whether they match the regexp or not"
      | Ok compRegexp =>
          match rev with
          | Renamer_go =>
              if Bool.eqb (MatchString compRegexp basename) false
              then ret matchingfiles
              else ret (matchingfiles ++ [f])%list
          | Revised => ret matchingfiles
          end
      end)
  else ret [].

(** Lines 376-388: the files to rename, or [None] where the function leaves
    with [return 1]. *)
Definition chooseFiles (cfg : Config) (files matchingfiles : list string)
  : Run (option (list string)) :=
  if (1 <=? length matchingfiles)%nat then ret (Some matchingfiles)
  else if negb (isEmpty (regexpArg cfg)) then
    if forceArg cfg then
      Fprintf_Stdout ("No files matched, including all files anyway (-force enabled)" ++ LF) ;;
      ret (Some files)
    else
      Fprintf_Stderr ("No files matched, check the correctness of your regexp" ++ LF) ;;
      ret None
  else ret (Some files).

(** Lines 390-414: one [if] per flag, each assigning [result]. *)
Definition transform (rev : Revision) (cfg : Config) (files : list string) : Run Z :=
  let result := 0 in
  result <- (if negb (isEmpty (prefixArg cfg))
             then addPrefix cfg files (prefixArg cfg) else ret result) ;;
  result <- (if negb (isEmpty (suffixArg cfg))
             then addSuffix cfg files (suffixArg cfg) else ret result) ;;
  result <- (if negb (isEmpty (indexArg cfg))
             then indexName cfg files (indexArg cfg) (numArg cfg) else ret result) ;;
  (if Bool.eqb (lowerArg cfg) true && Bool.eqb (upperArg cfg) true
   then printUsage "Can't use both lowercase and uppercase, choose one only!"
   else ret tt) ;;
  result <- (if Bool.eqb (lowerExtArg cfg) true
             then lowercaseExtension rev cfg files else ret result) ;;
  result <- (if Bool.eqb (lowerArg cfg) true
             then lowercaseFiles cfg files else ret result) ;;
  result <- (if Bool.eqb (upperArg cfg) true
             then uppercaseFiles cfg files else ret result) ;;
  ret result.

Definition renameFiles (rev : Revision) (cfg : Config) (dir files : list string) : Run Z :=
  '(dir, files) <- descend cfg dir files ;;
  matchingfiles <- matchFiles rev cfg files ;;
  chosen <- chooseFiles cfg files matchingfiles ;;
  match chosen with
  | None => ret 1
  | Some files => transform rev cfg files
  end.

(** *** main *)

Definition main (rev : Revision) (cfg : Config) : Run unit :=
  flagsInit cfg ;;
  '(directories, files) <- getFilesFromDir (targetArg cfg) ;;
  success_rename <- renameFiles rev cfg directories files ;;
  failures <- getOperationSuccessful ;;
  if (success_rename =? 0) && (failures =? 0)
  then Fprintf_Stdout (LF ++ "Renaming complete" ++ LF)
  else Fprintf_Stdout (LF ++ "Not all files were correctly renamed, check the previous error messages").

End Program.

(** ** A table-backed file system and a pattern fragment, for concrete runs *)

Module Sample.

Inductive Node : Type :=
| Directory
| Regular (content : string).

Definition isDirectory (n : Node) : bool :=
  match n with Directory => true | Regular _ => false end.

(** The working directory and the entries, keyed by absolute clean path, in
    the order directory listings report them. *)
Record Disk : Type := { wd : string; table : list (string * Node) }.

Definition resolve (d : Disk) (p : string) : string :=
  if filepath.IsAbs p then filepath.Clean p else filepath.Join [wd d; p].

Fixpoint lookup (t : list (string * Node)) (p : string) : option Node :=
  match t with
  | [] => None
  | (q, n) :: t' => if String.eqb q p then Some n else lookup t' p
  end.

Fixpoint remove (t : list (string * Node)) (p : string) : list (string * Node) :=
  match t with
  | [] => []
  | (q, n) :: t' => if String.eqb q p then remove t' p else (q, n) :: remove t' p
  end.

(** Bind [p], in place when it is there and at the end when it is new. *)
Fixpoint put (t : list (string * Node)) (p : string) (n : Node) : list (string * Node) :=
  match t with
  | [] => [(p, n)]
  | (q, m) :: t' => if String.eqb q p then (q, n) :: t' else (q, m) :: put t' p n
  end.

Definition noEntry (call p : string) : string :=
  call ++ " " ++ p ++ ": no such file or directory".

Definition lstat (d : Disk) (p : string) : Result FileInfo :=
  if String.eqb p "" then Err (noEntry "lstat" p)
  else
    match lookup (table d) (resolve d p) with
    | Some n => Ok {| Name := filepath.Base (resolve d p); IsDir := isDirectory n |}
    | None => Err (noEntry "lstat" p)
    end.

Definition open (d : Disk) (p : string) : Result File :=
  if String.eqb p "" then Err (noEntry "open" p)
  else
    match lookup (table d) (resolve d p) with
    | Some _ => Ok (resolve d p)
    | None => Err (noEntry "open" p)
    end.

Definition readdir (d : Disk) (h : File) : Result (list FileInfo) :=
  match lookup (table d) h with
  | Some Directory =>
      Ok (map (fun '(q, n) => {| Name := filepath.Base q; IsDir := isDirectory n |})
              (filter (fun '(q, _) => negb (String.eqb q h) && String.eqb (filepath.Dir q) h)
                      (table d)))
  | Some (Regular _) => Err ("readdirent " ++ h ++ ": not a directory")
  | None => Err (noEntry "readdirent" h)
  end.

Definition create (d : Disk) (p : string) : Disk * Result File :=
  let q := resolve d p in
  if String.eqb p "" then (d, Err (noEntry "open" p))
  else
    match lookup (table d) (filepath.Dir q), lookup (table d) q with
    | Some Directory, Some Directory => (d, Err ("open " ++ p ++ ": is a directory"))
    | Some Directory, _ => ({| wd := wd d; table := put (table d) q (Regular "") |}, Ok q)
    | _, _ => (d, Err (noEntry "open" p))
    end.

Definition copy (d : Disk) (dst src : option File) : Disk * Result unit :=
  match dst, src with
  | Some dst, Some src =>
      match lookup (table d) src with
      | Some (Regular content) =>
          ({| wd := wd d; table := put (table d) dst (Regular content) |}, Ok tt)
      | Some Directory => (d, Err ("read " ++ src ++ ": is a directory"))
      | None => (d, Err (noEntry "read" src))
      end
  | _, _ => (d, Err "invalid argument")
  end.

(** Moves regular files, which is what a listing's file half holds here;
    a directory as source is refused. *)
Definition rename (d : Disk) (old new : string) : Disk * Result unit :=
  let o := resolve d old in
  let n := resolve d new in
  if String.eqb old "" || String.eqb new "" then (d, Err (noEntry "rename" (old ++ " " ++ new)))
  else
    match lookup (table d) o with
    | Some (Regular content) =>
        match lookup (table d) (filepath.Dir n), lookup (table d) n with
        | Some Directory, Some Directory =>
            (d, Err ("rename " ++ old ++ " " ++ new ++ ": file exists"))
        | Some Directory, _ =>
            if String.eqb o n then (d, Ok tt)
            else ({| wd := wd d; table := put (remove (table d) o) n (Regular content) |}, Ok tt)
        | _, _ => (d, Err (noEntry "rename" (old ++ " " ++ new)))
        end
    | Some Directory => (d, Err ("rename " ++ old ++ " " ++ new ++ ": directory not moved"))
    | None => (d, Err (noEntry "rename" (old ++ " " ++ new)))
    end.

#[export] Instance DiskFS : FileSystem Disk := {
  os_Lstat := lstat;
  os_Getwd := fun d => Ok (wd d);
  os_Open := open;
  file_Readdir := readdir;
  os_Create := create;
  io_Copy := copy;
  os_Rename := rename
}.

(** A fragment of the regexp syntax: an optional [^], then literal bytes and
    [.], then an optional [$].  A pattern with any other operator is refused
    by this instance. *)
Record Pattern : Type := {
  fromStart : bool;
  toEnd : bool;
  symbols : list (option ascii)   (* [None] is the dot *)
}.

Definition isOperator (c : ascii) : bool :=
  existsb (Ascii.eqb c) (GoStrings.chars "\[]()*+?{}|^$").

Fixpoint parseSymbols (cs : list ascii) : option (list (option ascii)) :=
  match cs with
  | [] => Some []
  | c :: cs' =>
      if isOperator c then None
      else
        match parseSymbols cs' with
        | Some ps => Some ((if Ascii.eqb c "."%char then None else Some c) :: ps)
        | None => None
        end
  end.

Definition compile (expr : string) : Result Pattern :=
  let cs := GoStrings.chars expr in
  let '(start, cs) :=
    match cs with
    | c :: cs' => if Ascii.eqb c "^"%char then (true, cs') else (false, cs)
    | [] => (false, cs)
    end in
  let '(stop, cs) :=
    match rev cs with
    | c :: r => if Ascii.eqb c "$"%char then (true, rev r) else (false, cs)
    | [] => (false, cs)
    end in
  match parseSymbols cs with
  | Some ps => Ok {| fromStart := start; toEnd := stop; symbols := ps |}
  | None => Err ("error parsing regexp: " ++ expr)
  end.

Definition symbolMatches (p : option ascii) (c : ascii) : bool :=
  match p with
  | Some l => Ascii.eqb l c
  | None => negb (Ascii.eqb c "010"%char)
  end.

Fixpoint matchHere (ps : list (option ascii)) (stop : bool) (s : list ascii) : bool :=
  match ps, s with
  | [], [] => true
  | [], _ :: _ => negb stop
  | p :: ps', c :: s' => symbolMatches p c && matchHere ps' stop s'
  | _ :: _, [] => false
  end.

Fixpoint matchFrom (ps : list (option ascii)) (stop : bool) (s : list ascii) : bool :=
  matchHere ps stop s
  || match s with
     | [] => false
     | _ :: s' => matchFrom ps stop s'
     end.

Definition matchString (re : Pattern) (s : string) : bool :=
  if fromStart re then matchHere (symbols re) (toEnd re) (GoStrings.chars s)
  else matchFrom (symbols re) (toEnd re) (GoStrings.chars s).

#[export] Instance PatternRE : Regexp Pattern := {
  regexp_Compile := compile;
  MatchString := matchString
}.

(** The program on this file system and these patterns. *)
Definition run {A} (c : Run Disk A) (d : Disk) : Outcome Disk A := c (boot d).

End Sample.

(** ** Vocabulary of the statements *)

(** Only the error stream may have grown from [w] to [w']. *)
Definition quiet {FS} (w w' : World FS) : Prop :=
  fs w' = fs w /\ stdout w' = stdout w
  /\ operationSuccessful w' = operationSuccessful w.

Definition anyWorld {FS} (w w' : World FS) : Prop := True.

(** [m] is [l] with some members left out, the order kept. *)
Inductive Subsequence {A : Type} : list A -> list A -> Prop :=
| Subsequence_nil : Subsequence [] []
| Subsequence_skip x m l : Subsequence m l -> Subsequence m (x :: l)
| Subsequence_take x m l : Subsequence m l -> Subsequence (x :: m) (x :: l).

(** The line the overwrite check prints about [newname]. *)
Definition guardDiagnostic (newname : string) : string :=
  "File " ++ newname ++ " already exist! Use -force to override it" ++ LF.

(** The line a dry-run prints. *)
Definition dryRunLine (oldname newname : string) : string :=
  "Renaming " ++ oldname ++ " to " ++ newname ++ " (dry-run)" ++ LF.

(** The world after a failed overwrite check on [newname]. *)
Definition guardFailure {FS} (newname : string) (w : World FS) : World FS :=
  {| fs := fs w; stdout := stdout w;
     stderr := stderr w ++ [guardDiagnostic newname];
     operationSuccessful := GoInt.add (operationSuccessful w) 1 |}.

(** The world after one more line on the output stream. *)
Definition printed {FS} (text : string) (w : World FS) : World FS :=
  {| fs := fs w; stdout := stdout w ++ [text]; stderr := stderr w;
     operationSuccessful := operationSuccessful w |}.

(** The world after one more line on the error stream. *)
Definition complained {FS} (text : string) (w : World FS) : World FS :=
  {| fs := fs w; stdout := stdout w; stderr := stderr w ++ [text];
     operationSuccessful := operationSuccessful w |}.

Definition noMatchComplaint : string :=
  "No files matched, check the correctness of your regexp" ++ LF.

(** The members of [files] whose base name the compiled pattern matches. *)
Definition matchesOf {R} {RE : Regexp R} (re : R) (files : list string) : list string :=
  filter (fun f => MatchString re (filepath.Base f)) files.

Definition noMatchNotice : string :=
  "No files matched, including all files anyway (-force enabled)" ++ LF.

Definition renamingComplete : string := LF ++ "Renaming complete" ++ LF.

Definition notAllRenamed : string :=
  LF ++ "Not all files were correctly renamed, check the previous error messages".

(** The (old name, new name) pairs of an index run, the counter advancing by
    one from file to file. *)
Fixpoint indexPlan (names : list string) (newname : string) (count : Z)
  : list (string * string) :=
  match names with
  | [] => []
  | f :: rest =>
      (f, indexFormat (filepath.Dir f) newname count (filepath.Ext f))
      :: indexPlan rest newname (GoInt.add count 1)
  end.

(** [writeFile] on each pair in turn. *)
Definition writeAll {FS} {OS : FileSystem FS} (cfg : Config) (plan : list (string * string))
  : Run FS unit :=
  forRange plan tt (fun _ '(oldname, newname) => writeFile cfg oldname newname).

(** [proj] of the world is, once [c] is over and however it ended, what it
    was before. *)
Definition stays {FS A X} (proj : World FS -> X) (c : Run FS A) : Prop :=
  forall w, proj (final (c w)) = proj w.

(** A projection of the world that printing on either stream leaves alone. *)
Definition blindToStreams {FS X} (proj : World FS -> X) : Prop :=
  forall text w, proj (printed text w) = proj w /\ proj (complained text w) = proj w.

(** What [getFilesFromDir] finds for [dirname] on [disk]. *)
Definition listingOn {FS} {OS : FileSystem FS} (disk : FS) (dirname : string)
  : list string * list string :=
  match getFilesFromDir dirname (boot disk) with
  | Returned listing _ => listing
  | Exited _ _ => ([], [])
  end.

(** Whether the overwrite check of [writeFile] counts a failure. *)
Definition guardTrips {FS} {OS : FileSystem FS} (cfg : Config) (disk : FS) (newname : string)
  : bool :=
  succeeded (os_Lstat disk newname) && negb (forceArg cfg).

(** The calls of the copy or rename that come back with an error. *)
Definition failedCalls {FS} {OS : FileSystem FS} (cfg : Config) (disk : FS)
  (oldname newname : string) : Z :=
  if dryrunArg cfg then 0
  else if copyArg cfg then
    let created := os_Create disk newname in
    let opened := os_Open (fst created) oldname in
    let copied := io_Copy (fst created) (handle (snd created)) (handle opened) in
    Z.b2z (negb (succeeded (snd created))) + Z.b2z (negb (succeeded opened))
    + Z.b2z (negb (succeeded (snd copied)))
  else Z.b2z (negb (succeeded (snd (os_Rename disk oldname newname)))).

(** Reading back a number printed with [%03d]. *)
Definition read_03d (s : string) : option Z :=
  option_map Z.of_int (NilEmpty.int_of_string s).

(** The line [writeFile] prints on the output stream, if any. *)
Definition reportedLine {FS} {OS : FileSystem FS} (cfg : Config) (disk : FS)
  (oldname newname : string) : option string :=
  if dryrunArg cfg then Some (dryRunLine oldname newname)
  else if copyArg cfg then
    let created := os_Create disk newname in
    let opened := os_Open (fst created) oldname in
    if succeeded (snd (io_Copy (fst created) (handle (snd created)) (handle opened)))
    then Some ("Copying " ++ oldname ++ " to " ++ newname ++ LF)
    else None
  else
    if succeeded (snd (os_Rename disk oldname newname))
    then Some ("Renaming " ++ oldname ++ " to " ++ newname ++ LF)
    else None.

(** ** Inputs of the concrete runs *)

Module Inputs.
Import Sample.

(** /home/d holds a.TXT and b.txt. *)
Definition pair : Disk :=
  {| wd := "/home";
     table := [("/home", Directory); ("/home/d", Directory);
               ("/home/d/a.TXT", Regular "A"); ("/home/d/b.txt", Regular "B")] |}.

(** /r/top.txt, /r/a/mid.txt, /r/a/b/deep.txt. *)
Definition nested : Disk :=
  {| wd := "/";
     table := [("/r", Directory); ("/r/top.txt", Regular "t");
               ("/r/a", Directory); ("/r/a/mid.txt", Regular "m");
               ("/r/a/b", Directory); ("/r/a/b/deep.txt", Regular "d")] |}.

(** /docs holds MyFile.TXT. *)
Definition docs : Disk :=
  {| wd := "/";
     table := [("/docs", Directory); ("/docs/MyFile.TXT", Regular "text")] |}.

(** /e is an empty directory. *)
Definition hollow : Disk :=
  {| wd := "/"; table := [("/e", Directory)] |}.

(** -r -n -p x_ -t /r *)
Definition recursivePrefix : Config :=
  {| regexpArg := ""; prefixArg := "x_"; suffixArg := ""; indexArg := "";
     numArg := 1; targetArg := "/r"; lowerExtArg := false; lowerArg := false;
     upperArg := false; copyArg := false; dryrunArg := true;
     forceArg := false; recursiveArg := true |}.

(** -e -t /docs *)
Definition lowerExtOnly : Config :=
  {| regexpArg := ""; prefixArg := ""; suffixArg := ""; indexArg := "";
     numArg := 1; targetArg := "/docs"; lowerExtArg := true; lowerArg := false;
     upperArg := false; copyArg := false; dryrunArg := false;
     forceArg := false; recursiveArg := false |}.

(** -u -x ^a -t d *)
Definition upperMatching (force : bool) : Config :=
  {| regexpArg := "^a"; prefixArg := ""; suffixArg := ""; indexArg := "";
     numArg := 1; targetArg := "d"; lowerExtArg := false; lowerArg := false;
     upperArg := true; copyArg := false; dryrunArg := false;
     forceArg := force; recursiveArg := false |}.

(** -u -x ^z -t d, with or without -f *)
Definition upperUnmatched (force : bool) : Config :=
  {| regexpArg := "^z"; prefixArg := ""; suffixArg := ""; indexArg := "";
     numArg := 1; targetArg := "d"; lowerExtArg := false; lowerArg := false;
     upperArg := true; copyArg := false; dryrunArg := false;
     forceArg := force; recursiveArg := false |}.

(** -l -u -p x_ -t d *)
Definition bothCasesPrefix : Config :=
  {| regexpArg := ""; prefixArg := "x_"; suffixArg := ""; indexArg := "";
     numArg := 1; targetArg := "d"; lowerExtArg := false; lowerArg := true;
     upperArg := true; copyArg := false; dryrunArg := false;
     forceArg := false; recursiveArg := false |}.

(** -l -u -t d *)
Definition bothCases : Config :=
  {| regexpArg := ""; prefixArg := ""; suffixArg := ""; indexArg := "";
     numArg := 1; targetArg := "d"; lowerExtArg := false; lowerArg := true;
     upperArg := true; copyArg := false; dryrunArg := false;
     forceArg := false; recursiveArg := false |}.

(** -x a -t <target>: a filter and no transformation *)
Definition filterOnly (target : string) : Config :=
  {| regexpArg := "a"; prefixArg := ""; suffixArg := ""; indexArg := "";
     numArg := 1; targetArg := target; lowerExtArg := false; lowerArg := false;
     upperArg := false; copyArg := false; dryrunArg := false;
     forceArg := false; recursiveArg := false |}.

(** -x ( -p x_ -t <target>, with or without -f: a pattern that does not
    compile *)
Definition badPattern (target : string) (force : bool) : Config :=
  {| regexpArg := "("; prefixArg := "x_"; suffixArg := ""; indexArg := "";
     numArg := 1; targetArg := target; lowerExtArg := false; lowerArg := false;
     upperArg := false; copyArg := false; dryrunArg := false;
     forceArg := force; recursiveArg := false |}.

(** -p x_ -t d, with the switches -c, -n, -f as given *)
Definition prefixing (copy dryrun force : bool) : Config :=
  {| regexpArg := ""; prefixArg := "x_"; suffixArg := ""; indexArg := "";
     numArg := 1; targetArg := "d"; lowerExtArg := false; lowerArg := false;
     upperArg := false; copyArg := copy; dryrunArg := dryrun;
     forceArg := force; recursiveArg := false |}.

(** -n with every transformation flag: -p x_ -s _y -i img -I 7 -e -u -r *)
Definition dryEverything : Config :=
  {| regexpArg := ""; prefixArg := "x_"; suffixArg := "_y"; indexArg := "img";
     numArg := 7; targetArg := "d"; lowerExtArg := true; lowerArg := false;
     upperArg := true; copyArg := false; dryrunArg := true;
     forceArg := false; recursiveArg := true |}.

End Inputs.

#[export] Existing Instance Sample.DiskFS.
#[export] Existing Instance Sample.PatternRE.

(** * Properties *)

(** ** Arithmetic of the wrapped integers *)

Lemma wrap_inRange (z : Z) : GoInt.inRange z -> GoInt.wrap z = z.
Proof.
  unfold GoInt.inRange, GoInt.wrap, GoInt.minInt, GoInt.maxInt, GoInt.bits.
  intros Hz. rewrite Z.mod_small; lia.
Qed.

Lemma wrap_is_inRange (z : Z) : GoInt.inRange (GoInt.wrap z).
Proof.
  unfold GoInt.inRange, GoInt.wrap, GoInt.minInt, GoInt.maxInt, GoInt.bits.
  pose proof (Z.mod_pos_bound (z + 2 ^ (64 - 1)) (2 ^ 64) ltac:(lia)). lia.
Qed.

Lemma add_zero (z : Z) : GoInt.inRange z -> GoInt.add z 0 = z.
Proof. intros Hz. unfold GoInt.add. rewrite Z.add_0_r. now apply wrap_inRange. Qed.

Lemma wrap_add_wrap (a b : Z) : GoInt.wrap (GoInt.wrap a + b) = GoInt.wrap (a + b).
Proof.
  unfold GoInt.wrap.
  replace ((a + 2 ^ (GoInt.bits - 1)) mod 2 ^ GoInt.bits - 2 ^ (GoInt.bits - 1)
           + b + 2 ^ (GoInt.bits - 1))
    with ((a + 2 ^ (GoInt.bits - 1)) mod 2 ^ GoInt.bits + b) by lia.
  rewrite Zplus_mod_idemp_l. f_equal. f_equal. lia.
Qed.

(** ** Which computations come back, and what they leave untouched *)

Arguments filepath.Join : simpl never.
Arguments filepath.Clean : simpl never.
Arguments filepath.Dir : simpl never.
Arguments filepath.Base : simpl never.
Arguments filepath.Ext : simpl never.

Ltac run_unfold :=
  unfold bind, ret, Fprintf_Stdout, Fprintf_Stderr, addOperationSuccessful,
    getOperationSuccessful, reading, writing, os_Exit in *.

Section Facts.

Context {FS : Type} {OS : FileSystem FS} {R : Type} {RE : Regexp R}.

Local Abbreviation World := (World FS).

Lemma quiet_refl (w : World) : quiet w w.
Proof. repeat split. Qed.

Lemma quiet_trans (w1 w2 w3 : World) : quiet w1 w2 -> quiet w2 w3 -> quiet w1 w3.
Proof. unfold quiet. intuition congruence. Qed.

(** A loop whose body always comes back comes back, and a preorder on worlds
    kept by the body is kept by the loop. *)
Lemma forRange_returns {A S} (rel : World -> World -> Prop) (body : S -> A -> Run FS S) :
  (forall w, rel w w) ->
  (forall w1 w2 w3, rel w1 w2 -> rel w2 w3 -> rel w1 w3) ->
  (forall s x w, exists s' w', body s x w = Returned s' w' /\ rel w w') ->
  forall xs s w, exists s' w', forRange xs s body w = Returned s' w' /\ rel w w'.
Proof.
  intros Hrefl Htrans Hbody xs.
  induction xs as [|x rest IH]; intros s w; simpl.
  - exists s, w. split; [reflexivity | apply Hrefl].
  - unfold bind. destruct (Hbody s x w) as (s1 & w1 & Hb & Hr1). rewrite Hb.
    destruct (IH s1 w1) as (s2 & w2 & Hl & Hr2).
    exists s2, w2. split; [exact Hl | eauto].
Qed.

Lemma overwriteGuard_returns cfg newname (w : World) :
  exists w', overwriteGuard cfg newname w = Returned tt w' /\ fs w' = fs w.
Proof.
  unfold overwriteGuard. run_unfold.
  destruct (succeeded (os_Lstat (fs w) newname) && Bool.eqb (forceArg cfg) false);
    eexists; split; reflexivity.
Qed.

Lemma copyFile_returns oldname newname (w : World) :
  exists w', copyFile oldname newname w = Returned tt w'.
Proof.
  unfold copyFile. run_unfold. simpl.
  destruct (os_Create (fs w) newname) as [d1 [c|e1]] eqn:Hc; simpl;
  destruct (os_Open d1 oldname) as [o|e2] eqn:Ho; simpl;
  match goal with |- context [io_Copy ?d ?a ?b] =>
    destruct (io_Copy d a b) as [d2 [u|e3]] eqn:Hcp end; simpl;
  eexists; reflexivity.
Qed.

Lemma renameFile_returns oldname newname (w : World) :
  exists w', renameFile oldname newname w = Returned tt w'.
Proof.
  unfold renameFile. run_unfold. simpl.
  destruct (os_Rename (fs w) oldname newname) as [d [u|e]]; simpl;
    eexists; reflexivity.
Qed.

Lemma perform_returns cfg oldname newname (w : World) :
  exists w', perform cfg oldname newname w = Returned tt w'.
Proof.
  unfold perform.
  destruct (dryrunArg cfg).
  - run_unfold. eexists; reflexivity.
  - destruct (copyArg cfg); [apply copyFile_returns | apply renameFile_returns].
Qed.

Lemma writeFile_returns cfg oldname newname (w : World) :
  exists w', writeFile cfg oldname newname w = Returned tt w'.
Proof.
  unfold writeFile, bind.
  destruct (overwriteGuard_returns cfg newname w) as (w1 & Hg & _). rewrite Hg.
  apply perform_returns.
Qed.

Lemma writeFile_body_returns cfg (name : string -> string) :
  forall (s : unit) f (w : World), exists s' w',
    (fun (_ : unit) f => writeFile cfg f (name f)) s f w = Returned s' w' /\ anyWorld w w'.
Proof.
  intros s f w. destruct (writeFile_returns cfg f (name f) w) as (w' & Hw).
  exists tt, w'. split; [exact Hw | exact I].
Qed.

Lemma anyWorld_refl (w : World) : anyWorld w w.
Proof. exact I. Qed.

Lemma anyWorld_trans (w1 w2 w3 : World) : anyWorld w1 w2 -> anyWorld w2 w3 -> anyWorld w1 w3.
Proof. intros _ _. exact I. Qed.

(** A transformer loop that applies [name f] to every [f] returns 0. *)
Lemma rename_loop_returns_zero cfg (name : string -> string) names (w : World) :
  exists w',
    (forRange names tt (fun _ f => writeFile cfg f (name f)) ;; ret 0) w = Returned 0 w'.
Proof.
  unfold bind at 1.
  destruct (forRange_returns anyWorld (fun (_ : unit) f => writeFile cfg f (name f))
              anyWorld_refl anyWorld_trans (writeFile_body_returns cfg name) names tt w)
    as (s' & w' & Hl & _).
  rewrite Hl. exists w'. reflexivity.
Qed.

Lemma addPrefix_returns_zero cfg names prefix (w : World) :
  exists w', addPrefix cfg names prefix w = Returned 0 w'.
Proof. apply (rename_loop_returns_zero cfg). Qed.

Lemma addSuffix_returns_zero cfg names suffix (w : World) :
  exists w', addSuffix cfg names suffix w = Returned 0 w'.
Proof. apply (rename_loop_returns_zero cfg). Qed.

Lemma lowercaseFiles_returns_zero cfg names (w : World) :
  exists w', lowercaseFiles cfg names w = Returned 0 w'.
Proof. apply (rename_loop_returns_zero cfg). Qed.

Lemma uppercaseFiles_returns_zero cfg names (w : World) :
  exists w', uppercaseFiles cfg names w = Returned 0 w'.
Proof. apply (rename_loop_returns_zero cfg). Qed.

Lemma indexName_returns_zero cfg names newname count (w : World) :
  exists w', indexName cfg names newname count w = Returned 0 w'.
Proof.
  unfold indexName. unfold bind at 1.
  match goal with |- context [forRange names count ?b] =>
    destruct (forRange_returns anyWorld b anyWorld_refl anyWorld_trans) with
      (xs := names) (s := count) (w := w) as (s' & w' & Hl & _) end.
  - intros s f w0. unfold bind.
    destruct (writeFile_returns cfg f
                (indexFormat (filepath.Dir f) newname s (filepath.Ext f)) w0) as (w1 & Hw).
    rewrite Hw. eexists _, _. split; [reflexivity | exact I].
  - rewrite Hl. exists w'. reflexivity.
Qed.

(** In [Renamer.go] the loop of [lowercaseExtension] leaves the world as it
    found it. *)
Lemma lowercaseExtension_Renamer_go_idle cfg names (w : World) :
  lowercaseExtension Renamer_go cfg names w = Returned 0 w.
Proof.
  unfold lowercaseExtension, bind.
  assert (H : forall s, forRange names s
                (fun (_ : unit) (_ : string) => ret (FS := FS) tt) w = Returned tt w).
  { induction names as [|f rest IH]; intros []; simpl; [reflexivity|].
    unfold bind, ret. apply (IH tt). }
  rewrite H. reflexivity.
Qed.

Lemma lowercaseExtension_returns_zero rev cfg names (w : World) :
  exists w', lowercaseExtension rev cfg names w = Returned 0 w'.
Proof.
  destruct rev.
  - exists w. apply lowercaseExtension_Renamer_go_idle.
  - apply (rename_loop_returns_zero cfg lowercaseExtensionName).
Qed.

(** [getFilesFromDir] reads: it comes back, and only the error stream may
    have grown. *)
Lemma getFilesFromDir_quiet dirname (w : World) :
  exists listing w', getFilesFromDir dirname w = Returned listing w' /\ quiet w w'.
Proof.
  unfold getFilesFromDir, filepath_Abs. run_unfold. cbv beta iota.
  repeat match goal with
         | |- context [match ?x with Ok _ => _ | Err _ => _ end] => destruct x; cbv beta iota
         | |- context [if ?b then _ else _] => destruct b; cbv beta iota
         end;
    eexists _, _; (split; [reflexivity | repeat split]).
Qed.

(** The recursive step comes back too, with the file system, the output
    stream and the counter as they were. *)
Lemma descend_quiet cfg dir files (w : World) :
  exists found w', descend cfg dir files w = Returned found w' /\ quiet w w'.
Proof.
  unfold descend. destruct (Bool.eqb (recursiveArg cfg) true).
  - apply forRange_returns; [apply quiet_refl | apply quiet_trans |].
    intros [ds fsx] d w0. unfold bind.
    destruct (getFilesFromDir_quiet d w0) as ([nd nf] & w1 & Hg & Hq).
    rewrite Hg. eexists _, _. split; [reflexivity | exact Hq].
  - exists (dir, files), w. split; [reflexivity | apply quiet_refl].
Qed.

End Facts.

(** ** The index transformer *)

Section Index.

Context {FS : Type} {OS : FileSystem FS}.

(** The loop of [indexName] applies the pairs of [indexPlan], in order. *)
Lemma indexName_follows_plan cfg names newname count (w : World FS) :
  indexName cfg names newname count w
  = (writeAll cfg (indexPlan names newname count) ;; ret 0) w.
Proof.
  unfold indexName, writeAll. unfold bind at 1 3.
  revert count w.
  induction names as [|f rest IH]; intros count w; simpl; [reflexivity|].
  unfold bind at 1 2 4.
  destruct (writeFile cfg f _ w) as [[] w1|code w1]; [|reflexivity].
  unfold ret at 1. apply IH.
Qed.

(** The [k]-th file of the list is given the start value advanced [k]
    times: the counter is never set back. *)
Lemma indexPlan_nth names newname : forall count k f,
  GoInt.inRange count ->
  nth_error names k = Some f ->
  nth_error (indexPlan names newname count) k
  = Some (f, indexFormat (filepath.Dir f) newname
               (GoInt.wrap (count + Z.of_nat k)) (filepath.Ext f)).
Proof.
  induction names as [|g rest IH]; intros count k f Hc Hk.
  - destruct k; discriminate.
  - destruct k as [|k]; simpl in *.
    + injection Hk as ->. rewrite Z.add_0_r, wrap_inRange by exact Hc. reflexivity.
    + rewrite (IH (GoInt.add count 1) k f (wrap_is_inRange _) Hk).
      unfold GoInt.add. rewrite wrap_add_wrap. do 4 f_equal. lia.
Qed.

Lemma indexPlan_length names newname : forall count,
  length (indexPlan names newname count) = length names.
Proof. induction names as [|f rest IH]; intros count; simpl; [|rewrite IH]; reflexivity. Qed.

(** C8. With base name "img" and start number 5, the files a.txt, b.txt,
    c.txt are handed to [writeFile], in that order, with the destinations
    img005.txt, img006.txt, img007.txt of their own directory: the counter
    starts at 5, is printed on three zero-padded digits, advances by one per
    file and each file keeps its extension.  The same holds for the three
    files taken with a directory in front. *)
Theorem C8_index_img005_img006_img007 cfg (w : World FS) :
  indexName cfg ["a.txt"; "b.txt"; "c.txt"] "img" 5 w
  = (writeAll cfg [("a.txt", "./img005.txt"); ("b.txt", "./img006.txt");
                   ("c.txt", "./img007.txt")] ;; ret 0) w
  /\ map filepath.Base ["./img005.txt"; "./img006.txt"; "./img007.txt"]
     = ["img005.txt"; "img006.txt"; "img007.txt"]
  /\ indexName cfg ["/pics/a.txt"; "/pics/b.txt"; "/pics/c.txt"] "img" 5 w
     = (writeAll cfg [("/pics/a.txt", "/pics/img005.txt");
                      ("/pics/b.txt", "/pics/img006.txt");
                      ("/pics/c.txt", "/pics/img007.txt")] ;; ret 0) w
  /\ map filepath.Ext ["./img005.txt"; "./img006.txt"; "./img007.txt"]
     = map filepath.Ext ["a.txt"; "b.txt"; "c.txt"].
Proof.
  repeat split; try reflexivity; rewrite indexName_follows_plan; reflexivity.
Qed.

End Index.

(** ** The apply step *)

Section Apply.

Context {FS : Type} {OS : FileSystem FS}.

(** With the guard tripped, [writeFile] is [perform] run after the failure
    has been recorded. *)
Lemma writeFile_guard_tripped cfg oldname newname (w : World FS) :
  succeeded (os_Lstat (fs w) newname) = true ->
  forceArg cfg = false ->
  writeFile cfg oldname newname w = perform cfg oldname newname (guardFailure newname w).
Proof.
  intros Hl Hf. unfold writeFile, overwriteGuard. run_unfold.
  rewrite Hl, Hf. reflexivity.
Qed.

(** With the guard silent, [writeFile] is [perform]. *)
Lemma writeFile_guard_silent cfg oldname newname (w : World FS) :
  succeeded (os_Lstat (fs w) newname) && Bool.eqb (forceArg cfg) false = false ->
  writeFile cfg oldname newname w = perform cfg oldname newname w.
Proof.
  intros Hg. unfold writeFile, overwriteGuard. run_unfold.
  rewrite Hg. destruct w; reflexivity.
Qed.

(** What [perform] leaves: between zero and three more failures, an error
    stream that has only grown. *)
Lemma perform_counts cfg oldname newname (w : World FS) :
  GoInt.inRange (operationSuccessful w) ->
  exists w' k later,
    perform cfg oldname newname w = Returned tt w'
    /\ 0 <= k <= 3
    /\ operationSuccessful w' = GoInt.wrap (operationSuccessful w + k)
    /\ stderr w' = (stderr w ++ later)%list.
Proof.
  intros Hr. unfold perform, copyFile, renameFile. run_unfold. cbv beta iota.
  destruct (dryrunArg cfg); [|destruct (copyArg cfg)];
    cbn [fs stdout stderr operationSuccessful].
  - eexists _, 0, []. repeat split; try lia; cbn; rewrite ?app_nil_r; reflexivity.
  - destruct (os_Create (fs w) newname) as [d1 [c|e1]]; cbn;
    destruct (os_Open d1 oldname) as [o|e2]; cbn;
    match goal with |- context [io_Copy ?d ?a ?b] =>
      destruct (io_Copy d a b) as [d2 [u|e3]] end; cbn;
    unfold GoInt.add; rewrite <- ?app_assoc;
    [ eexists _, 0, _ | eexists _, 1, _ | eexists _, 1, _ | eexists _, 2, _
    | eexists _, 1, _ | eexists _, 2, _ | eexists _, 2, _ | eexists _, 3, _ ];
    (split; [reflexivity|]); (split; [lia|]);
    cbn [operationSuccessful stderr];
    (split;
     [ repeat (rewrite wrap_add_wrap || rewrite <- Z.add_assoc);
       rewrite ?Z.add_0_r, ?wrap_inRange by exact Hr;
       try reflexivity; f_equal; lia
     | first [reflexivity | symmetry; apply app_nil_r] ]).
  - destruct (os_Rename (fs w) oldname newname) as [d [u|e]]; cbn;
    unfold GoInt.add; rewrite <- ?app_assoc;
    [ eexists _, 0, [] | eexists _, 1, _ ];
    (split; [reflexivity|]); (split; [lia|]);
    cbn [operationSuccessful stderr];
    (split; [ rewrite ?Z.add_0_r, ?wrap_inRange by exact Hr; reflexivity
            | first [reflexivity | symmetry; apply app_nil_r] ]).
Qed.

(** The file system after [perform] when neither dry-run nor copy is set is
    the one [os.Rename] returns. *)
Lemma perform_renames cfg oldname newname (w : World FS) :
  dryrunArg cfg = false -> copyArg cfg = false ->
  fs (final (perform cfg oldname newname w)) = fst (os_Rename (fs w) oldname newname).
Proof.
  intros Hd Hc. unfold perform, renameFile. rewrite Hd, Hc. run_unfold.
  destruct (os_Rename (fs w) oldname newname) as [d [u|e]]; reflexivity.
Qed.

(** With copy set and dry-run unset it is the one [io.Copy] returns, called
    after [os.Create] on the new name. *)
Lemma perform_copies cfg oldname newname (w : World FS) :
  dryrunArg cfg = false -> copyArg cfg = true ->
  fs (final (perform cfg oldname newname w))
  = let created := os_Create (fs w) newname in
    fst (io_Copy (fst created) (handle (snd created))
                 (handle (os_Open (fst created) oldname))).
Proof.
  intros Hd Hc. unfold perform, copyFile. rewrite Hd, Hc. run_unfold. cbv beta iota zeta.
  destruct (os_Create (fs w) newname) as [d1 [c|e1]]; cbn;
  destruct (os_Open d1 oldname) as [o|e2]; cbn;
  match goal with |- context [io_Copy ?d ?a ?b] =>
    destruct (io_Copy d a b) as [d2 [u|e3]] end; reflexivity.
Qed.

(** C7. When [os.Lstat] finds the new name and force is unset, [writeFile]
    records the failure (the counter advances by between one and four
    units, so by at least one wherever four more units fit below the largest
    [int]) and prints the diagnostic naming the new name; the copy or rename
    is attempted all the same, on the file system as the guard found it.
    When force is set the guard records nothing, whatever [os.Lstat]
    answers: [writeFile] is [perform]. *)
Theorem C7_overwrite_guard cfg oldname newname (w : World FS) :
  (succeeded (os_Lstat (fs w) newname) = true -> forceArg cfg = false ->
   writeFile cfg oldname newname w = perform cfg oldname newname (guardFailure newname w)
   /\ (exists w' k later,
         writeFile cfg oldname newname w = Returned tt w'
         /\ 1 <= k <= 4
         /\ operationSuccessful w' = GoInt.wrap (operationSuccessful w + k)
         /\ (GoInt.minInt <= operationSuccessful w <= GoInt.maxInt - 4 ->
             operationSuccessful w + 1 <= operationSuccessful w')
         /\ stderr w' = (stderr w ++ guardDiagnostic newname :: later)%list)
   /\ (dryrunArg cfg = false -> copyArg cfg = false ->
       fs (final (writeFile cfg oldname newname w))
       = fst (os_Rename (fs w) oldname newname))
   /\ (dryrunArg cfg = false -> copyArg cfg = true ->
       fs (final (writeFile cfg oldname newname w))
       = let created := os_Create (fs w) newname in
         fst (io_Copy (fst created) (handle (snd created))
                      (handle (os_Open (fst created) oldname)))))
  /\ (forceArg cfg = true ->
      writeFile cfg oldname newname w = perform cfg oldname newname w).
Proof.
  split.
  - intros Hl Hf.
    pose proof (writeFile_guard_tripped cfg oldname newname w Hl Hf) as Hw.
    split; [exact Hw|]. rewrite Hw. split; [|split].
    + destruct (perform_counts cfg oldname newname (guardFailure newname w))
        as (w' & k & later & Hp & Hk & Hc & He).
      { apply wrap_is_inRange. }
      exists w', (1 + k), later. split; [exact Hp|]. split; [lia|].
      cbn [guardFailure operationSuccessful stderr] in Hc, He.
      unfold GoInt.add in Hc. rewrite wrap_add_wrap, <- Z.add_assoc in Hc.
      split; [exact Hc|]. split.
      * intros Hroom. rewrite Hc, wrap_inRange; [lia|].
        unfold GoInt.inRange. lia.
      * rewrite He, <- app_assoc. reflexivity.
    + intros Hd Hc.
      exact (perform_renames cfg oldname newname (guardFailure newname w) Hd Hc).
    + intros Hd Hc.
      exact (perform_copies cfg oldname newname (guardFailure newname w) Hd Hc).
  - intros Hf. apply writeFile_guard_silent. rewrite Hf. apply andb_false_r.
Qed.

(** C9 (as amended). A [writeFile] under dry-run, the counter holding a Go
    [int], comes back having printed its one line on the output stream and
    with the file system as it was.  The dry-run branch adds nothing to the
    counter; the overwrite check that runs before it adds its one unit, with
    its diagnostic, exactly when the new name exists and force is unset. *)
Theorem C9_dry_run_leaves_disk cfg oldname newname (w : World FS) :
  dryrunArg cfg = true ->
  GoInt.inRange (operationSuccessful w) ->
  exists w',
    writeFile cfg oldname newname w = Returned tt w'
    /\ stdout w' = (stdout w ++ [dryRunLine oldname newname])%list
    /\ fs w' = fs w
    /\ (if succeeded (os_Lstat (fs w) newname) && negb (forceArg cfg)
        then operationSuccessful w' = GoInt.add (operationSuccessful w) 1
             /\ stderr w' = (stderr w ++ [guardDiagnostic newname])%list
        else operationSuccessful w' = operationSuccessful w
             /\ stderr w' = stderr w).
Proof.
  intros Hd Hr. unfold writeFile, overwriteGuard, perform. rewrite Hd. run_unfold.
  destruct (succeeded (os_Lstat (fs w) newname)); cbn [andb];
    destruct (forceArg cfg); cbn [Bool.eqb negb];
    eexists; (split; [reflexivity|]); cbn [fs stdout stderr operationSuccessful];
    repeat split; rewrite ?add_zero; try reflexivity;
    try exact Hr; apply wrap_is_inRange.
Qed.

End Apply.

(** A rename of a.TXT onto b.txt, which is there, force unset: the failure is
    counted and b.txt is overwritten all the same.  With force set the guard
    adds nothing. *)
Lemma C7_overwrite_guard_witness :
  succeeded (os_Lstat (fs (boot Inputs.pair)) "/home/d/b.txt") = true
  /\ forceArg (Inputs.prefixing false false false) = false
  /\ dryrunArg (Inputs.prefixing false false false) = false
  /\ copyArg (Inputs.prefixing false false false) = false
  /\ GoInt.minInt <= operationSuccessful (boot Inputs.pair) <= GoInt.maxInt - 4
  /\ forceArg (Inputs.prefixing false false true) = true
  /\ operationSuccessful (boot Inputs.pair) + 1
     <= operationSuccessful
          (final (writeFile (Inputs.prefixing false false false)
                    "/home/d/a.TXT" "/home/d/b.txt" (boot Inputs.pair)))
  /\ fs (final (writeFile (Inputs.prefixing false false false)
                  "/home/d/a.TXT" "/home/d/b.txt" (boot Inputs.pair)))
     = {| Sample.wd := "/home";
          Sample.table := [("/home", Sample.Directory); ("/home/d", Sample.Directory);
                           ("/home/d/b.txt", Sample.Regular "A")] |}
  /\ writeFile (Inputs.prefixing false false true)
       "/home/d/a.TXT" "/home/d/b.txt" (boot Inputs.pair)
     = perform (Inputs.prefixing false false true)
         "/home/d/a.TXT" "/home/d/b.txt" (boot Inputs.pair).
Proof.
  assert (Hroom : GoInt.minInt <= operationSuccessful (boot Inputs.pair)
                  <= GoInt.maxInt - 4).
  { split; intros H; discriminate H. }
  split; [reflexivity|]. split; [reflexivity|]. split; [reflexivity|].
  split; [reflexivity|]. split; [exact Hroom|]. split; [reflexivity|].
  destruct (C7_overwrite_guard (Inputs.prefixing false false false)
              "/home/d/a.TXT" "/home/d/b.txt" (boot Inputs.pair)) as [Hguard _].
  destruct (Hguard eq_refl eq_refl) as (_ & (w' & k & later & Hw & _ & _ & Hup & _) & Hren & _).
  split; [|split].
  - rewrite Hw. exact (Hup Hroom).
  - rewrite (Hren eq_refl eq_refl). reflexivity.
  - destruct (C7_overwrite_guard (Inputs.prefixing false false true)
                "/home/d/a.TXT" "/home/d/b.txt" (boot Inputs.pair)) as [_ Hforce].
    exact (Hforce eq_refl).
Defined.

Lemma C9_dry_run_leaves_disk_witness :
  dryrunArg (Inputs.prefixing false true true) = true
  /\ GoInt.inRange (operationSuccessful (boot Inputs.pair))
  /\ exists w',
       writeFile (Inputs.prefixing false true true)
         "/home/d/a.TXT" "/home/d/b.txt" (boot Inputs.pair) = Returned tt w'
       /\ fs w' = Inputs.pair.
Proof.
  assert (Hr : GoInt.inRange (operationSuccessful (boot Inputs.pair))).
  { unfold GoInt.inRange. cbn. split; discriminate. }
  split; [reflexivity|]. split; [exact Hr|].
  destruct (C9_dry_run_leaves_disk (Inputs.prefixing false true true)
              "/home/d/a.TXT" "/home/d/b.txt" (boot Inputs.pair) eq_refl Hr)
    as (w' & Hw & _ & Hfs & _).
  exists w'. split; [exact Hw | exact Hfs].
Defined.

(** C9 as stated fails: under dry-run, with the new name taken and force
    unset, the call leaves the counter one higher than it found it. *)
Lemma C9_dry_run_guard_still_counts :
  ~ (dryrunArg (Inputs.prefixing false true false) = true ->
     operationSuccessful
       (final (writeFile (Inputs.prefixing false true false)
                 "/home/d/a.TXT" "/home/d/b.txt" (boot Inputs.pair)))
     = operationSuccessful (boot Inputs.pair)).
Proof. intros H. specialize (H eq_refl). vm_compute in H. discriminate H. Qed.

(** ** The matcher *)

Lemma filter_Subsequence {A} (keep : A -> bool) (l : list A) :
  Subsequence (filter keep l) l.
Proof.
  induction l as [|x l IH]; simpl; [constructor|].
  destruct (keep x); constructor; exact IH.
Qed.

Lemma filter_none {A} (keep : A -> bool) (l : list A) :
  (forall x, In x l -> keep x = false) -> filter keep l = [].
Proof.
  induction l as [|x l IH]; intros H; simpl; [reflexivity|].
  rewrite (H x (or_introl eq_refl)). apply IH. intros y Hy. apply H. right. exact Hy.
Qed.

(** [flagsInit] lets every configuration with a regexp through. *)
Lemma flagsInit_passes_with_filter {FS} cfg (w : World FS) :
  regexpArg cfg <> "" -> flagsInit cfg w = Returned tt w.
Proof.
  intros Hne. unfold flagsInit, isEmpty.
  apply String.eqb_neq in Hne. rewrite Hne. reflexivity.
Qed.

Section Matcher.

Context {FS : Type} {OS : FileSystem FS} {R : Type} {RE : Regexp R}.

(** With a pattern that compiles the loop comes back in the world it
    started in: with the matching files in [Renamer.go], with none in the
    revised copy. *)
Lemma matchFiles_compiled rev cfg (re : R) files (w : World FS) :
  regexpArg cfg <> "" ->
  regexp_Compile (regexpArg cfg) = Ok re ->
  matchFiles rev cfg files w
  = Returned (match rev with Renamer_go => matchesOf re files | Revised => [] end) w.
Proof.
  intros Hne Hre. unfold matchFiles, isEmpty.
  apply String.eqb_neq in Hne. rewrite Hne. cbn [negb].
  rewrite Hre.
  assert (Hacc : forall acc,
    forRange files acc
      (fun matchingfiles f =>
         match rev with
         | Renamer_go =>
             if Bool.eqb (MatchString re (filepath.Base f)) false
             then ret matchingfiles
             else ret (matchingfiles ++ [f])%list
         | Revised => ret matchingfiles
         end) w
    = Returned (match rev with
                | Renamer_go => acc ++ matchesOf re files
                | Revised => acc
                end)%list w).
  { induction files as [|f rest IH]; intros acc; simpl.
    - destruct rev; rewrite ?app_nil_r; reflexivity.
    - unfold bind. destruct rev.
      + destruct (MatchString re (filepath.Base f)); cbn [Bool.eqb]; unfold ret at 1;
          rewrite IH; [rewrite <- app_assoc|]; reflexivity.
      + unfold ret at 1. apply IH. }
  rewrite (Hacc []). destruct rev; reflexivity.
Qed.

(** Whatever the pattern, no file means no iteration: the pattern is not
    compiled. *)
Lemma matchFiles_no_file rev cfg (w : World FS) :
  matchFiles rev cfg [] w = Returned [] w.
Proof. unfold matchFiles. destruct (negb (isEmpty (regexpArg cfg))); reflexivity. Qed.

(** With a pattern that compiles and matches no base name of the list [L]
    that reaches the matcher, [renameFiles] takes one of the two no-match
    branches. *)
Lemma renameFiles_no_match rev cfg (re : R) dir files dir' L (w w1 : World FS) :
  regexpArg cfg <> "" ->
  regexp_Compile (regexpArg cfg) = Ok re ->
  descend cfg dir files w = Returned (dir', L) w1 ->
  (forall f, In f L -> MatchString re (filepath.Base f) = false) ->
  renameFiles rev cfg dir files w
  = if forceArg cfg
    then transform rev cfg L (printed noMatchNotice w1)
    else Returned 1 (complained noMatchComplaint w1).
Proof.
  intros Hne Hre Hd Hnone.
  pose proof (matchFiles_compiled rev cfg re L w1 Hne Hre) as Hm.
  assert (Hempty : match rev with Renamer_go => matchesOf re L | Revised => [] end = []).
  { destruct rev; [|reflexivity]. unfold matchesOf. apply filter_none. exact Hnone. }
  rewrite Hempty in Hm.
  unfold renameFiles. unfold bind at 1. rewrite Hd.
  unfold bind at 1. rewrite Hm.
  unfold chooseFiles, isEmpty. cbn [length Nat.leb].
  apply String.eqb_neq in Hne. rewrite Hne. cbn [negb].
  destruct (forceArg cfg); reflexivity.
Qed.

(** C3. Let [L] be the file list that reaches the matcher (the list after
    the recursive step) and let the pattern be non-empty and compile.
    In [Renamer.go] the matcher comes back, in the world it started in, with
    exactly the members of [L] whose base name matches, in the order of [L]:
    a subsequence of [L], every member matching and no match left out.  If
    that list is not empty the transformation stage runs on it.  If no base
    name in [L] matches: with force unset [renameFiles] returns 1 with the
    file system, the output stream and the failure counter as they were;
    with force set it prints the notice and runs the transformation stage on
    [L] itself.
    In the revised copy the match test is never reached: the matcher comes
    back with no file whatever matches, and [renameFiles] takes the no-match
    branches for every list. *)
Theorem C3_matcher cfg (re : R) dir files dir' L (w w1 : World FS) :
  regexpArg cfg <> "" ->
  regexp_Compile (regexpArg cfg) = Ok re ->
  descend cfg dir files w = Returned (dir', L) w1 ->
  (matchFiles Renamer_go cfg L w1 = Returned (matchesOf re L) w1
   /\ Subsequence (matchesOf re L) L
   /\ (forall f, In f (matchesOf re L)
                 <-> In f L /\ MatchString re (filepath.Base f) = true)
   /\ (matchesOf re L <> [] ->
       renameFiles Renamer_go cfg dir files w
       = transform Renamer_go cfg (matchesOf re L) w1)
   /\ ((forall f, In f L -> MatchString re (filepath.Base f) = false) ->
       (forceArg cfg = false ->
        exists w', renameFiles Renamer_go cfg dir files w = Returned 1 w'
                   /\ fs w' = fs w /\ stdout w' = stdout w
                   /\ operationSuccessful w' = operationSuccessful w)
       /\ (forceArg cfg = true ->
           renameFiles Renamer_go cfg dir files w
           = transform Renamer_go cfg L (printed noMatchNotice w1))))
  /\ (matchFiles Revised cfg L w1 = Returned [] w1
      /\ renameFiles Revised cfg dir files w
         = if forceArg cfg
           then transform Revised cfg L (printed noMatchNotice w1)
           else Returned 1 (complained noMatchComplaint w1)).
Proof.
  intros Hne Hre Hd. split.
  - pose proof (matchFiles_compiled Renamer_go cfg re L w1 Hne Hre) as Hm.
    split; [exact Hm|]. split; [apply filter_Subsequence|].
    split; [intros f; unfold matchesOf; rewrite filter_In; reflexivity|].
    split.
    + intros Hsome. unfold renameFiles. unfold bind at 1. rewrite Hd.
      unfold bind at 1. rewrite Hm. unfold chooseFiles.
      destruct (matchesOf re L) as [|m ms]; [contradiction Hsome; reflexivity|].
      reflexivity.
    + intros Hnone.
      rewrite (renameFiles_no_match Renamer_go cfg re dir files dir' L w w1
                 Hne Hre Hd Hnone).
      destruct (descend_quiet cfg dir files w) as (found & wq & Hq & Hfs & Hout & Hops).
      rewrite Hd in Hq. injection Hq as <- <-.
      split; intros Hf; rewrite Hf; [|reflexivity].
      eexists. split; [reflexivity|]. cbn. auto.
  - pose proof (matchFiles_compiled Revised cfg re L w1 Hne Hre) as Hm.
    split; [exact Hm|].
    unfold renameFiles. unfold bind at 1. rewrite Hd.
    unfold bind at 1. rewrite Hm.
    unfold chooseFiles, isEmpty. cbn [length Nat.leb].
    apply String.eqb_neq in Hne. rewrite Hne. cbn [negb].
    destruct (forceArg cfg); reflexivity.
Qed.

(** At the level of [main]: with no match and force unset the run ends on
    its failure line, the disk as it was. *)
Lemma main_no_match_reports_failure rev cfg (re : R) dirs files dir' L (w w0 w1 : World FS) :
  regexpArg cfg <> "" ->
  regexp_Compile (regexpArg cfg) = Ok re ->
  getFilesFromDir (targetArg cfg) w = Returned (dirs, files) w0 ->
  descend cfg dirs files w0 = Returned (dir', L) w1 ->
  (forall f, In f L -> MatchString re (filepath.Base f) = false) ->
  forceArg cfg = false ->
  exists w', main rev cfg w = Returned tt w'
             /\ fs w' = fs w
             /\ stdout w' = (stdout w ++ [notAllRenamed])%list
             /\ operationSuccessful w' = operationSuccessful w.
Proof.
  intros Hne Hre Hlist Hd Hnone Hf.
  pose proof (renameFiles_no_match rev cfg re dirs files dir' L w0 w1 Hne Hre Hd Hnone)
    as Hren.
  rewrite Hf in Hren.
  destruct (descend_quiet cfg dirs files w0) as (found & wd & Hqd & Hfs1 & Hout1 & Hops1).
  rewrite Hd in Hqd. injection Hqd as <- <-.
  destruct (getFilesFromDir_quiet (targetArg cfg) w) as (l & wq & Hq & Hfs0 & Hout0 & Hops0).
  rewrite Hlist in Hq. injection Hq as <- <-.
  unfold main. unfold bind at 1.
  rewrite (flagsInit_passes_with_filter cfg w Hne).
  unfold bind at 1. rewrite Hlist.
  unfold bind at 1. rewrite Hren.
  unfold bind, getOperationSuccessful, Fprintf_Stdout. cbn.
  eexists. split; [reflexivity|]. cbn. repeat split; congruence.
Qed.

End Matcher.

(** The matcher on /home/d, which holds a.TXT and b.txt.  With the pattern
    ^a [Renamer.go] keeps a.TXT alone and renames it, while the revised copy
    keeps nothing and returns 1 although a.TXT matches; with the pattern ^z,
    which no name there matches, [Renamer.go] returns 1 and leaves the
    disk. *)
Lemma C3_matcher_witness :
  regexpArg (Inputs.upperMatching false) <> ""
  /\ regexp_Compile (regexpArg (Inputs.upperMatching false))
     = Ok {| Sample.fromStart := true; Sample.toEnd := false;
             Sample.symbols := [Some "a"%char] |}
  /\ descend (Inputs.upperMatching false) [] ["/home/d/a.TXT"; "/home/d/b.txt"]
       (boot Inputs.pair)
     = Returned ([], ["/home/d/a.TXT"; "/home/d/b.txt"]) (boot Inputs.pair)
  /\ matchFiles Renamer_go (Inputs.upperMatching false)
       ["/home/d/a.TXT"; "/home/d/b.txt"] (boot Inputs.pair)
     = Returned ["/home/d/a.TXT"] (boot Inputs.pair)
  /\ renameFiles Renamer_go (Inputs.upperMatching false)
       [] ["/home/d/a.TXT"; "/home/d/b.txt"] (boot Inputs.pair)
     = transform Renamer_go (Inputs.upperMatching false) ["/home/d/a.TXT"]
         (boot Inputs.pair)
  /\ matchFiles Revised (Inputs.upperMatching false)
       ["/home/d/a.TXT"; "/home/d/b.txt"] (boot Inputs.pair)
     = Returned [] (boot Inputs.pair)
  /\ renameFiles Revised (Inputs.upperMatching false)
       [] ["/home/d/a.TXT"; "/home/d/b.txt"] (boot Inputs.pair)
     = Returned 1 (complained noMatchComplaint (boot Inputs.pair))
  /\ regexpArg (Inputs.upperUnmatched false) <> ""
  /\ forceArg (Inputs.upperUnmatched false) = false
  /\ exists w',
       renameFiles Renamer_go (Inputs.upperUnmatched false)
         [] ["/home/d/a.TXT"; "/home/d/b.txt"] (boot Inputs.pair) = Returned 1 w'
       /\ fs w' = Inputs.pair.
Proof.
  assert (Hne : regexpArg (Inputs.upperMatching false) <> "") by discriminate.
  assert (Hre : regexp_Compile (regexpArg (Inputs.upperMatching false))
                = Ok {| Sample.fromStart := true; Sample.toEnd := false;
                        Sample.symbols := [Some "a"%char] |}) by reflexivity.
  assert (Hd : descend (Inputs.upperMatching false) [] ["/home/d/a.TXT"; "/home/d/b.txt"]
                 (boot Inputs.pair)
               = Returned ([], ["/home/d/a.TXT"; "/home/d/b.txt"]) (boot Inputs.pair))
    by reflexivity.
  assert (Hsome : matchesOf {| Sample.fromStart := true; Sample.toEnd := false;
                               Sample.symbols := [Some "a"%char] |}
                    ["/home/d/a.TXT"; "/home/d/b.txt"] <> []) by discriminate.
  assert (Hne' : regexpArg (Inputs.upperUnmatched false) <> "") by discriminate.
  assert (Hre' : regexp_Compile (regexpArg (Inputs.upperUnmatched false))
                 = Ok {| Sample.fromStart := true; Sample.toEnd := false;
                         Sample.symbols := [Some "z"%char] |}) by reflexivity.
  assert (Hd' : descend (Inputs.upperUnmatched false) [] ["/home/d/a.TXT"; "/home/d/b.txt"]
                  (boot Inputs.pair)
                = Returned ([], ["/home/d/a.TXT"; "/home/d/b.txt"]) (boot Inputs.pair))
    by reflexivity.
  assert (Hnone : forall f, In f ["/home/d/a.TXT"; "/home/d/b.txt"] ->
                    MatchString {| Sample.fromStart := true; Sample.toEnd := false;
                                   Sample.symbols := [Some "z"%char] |}
                      (filepath.Base f) = false).
  { intros f [<-|[<-|[]]]; reflexivity. }
  assert (Hf' : forceArg (Inputs.upperUnmatched false) = false) by reflexivity.
  destruct (C3_matcher (Inputs.upperMatching false) _ _ _ _ _ _ _ Hne Hre Hd)
    as ((Hm & _ & _ & Hrun & _) & (Hm2 & Hrun2)).
  destruct (C3_matcher (Inputs.upperUnmatched false) _ _ _ _ _ _ _ Hne' Hre' Hd')
    as ((_ & _ & _ & _ & Hno) & _).
  destruct (proj1 (Hno Hnone) Hf') as (w' & Hret & Hfs & _).
  split; [exact Hne|]. split; [exact Hre|]. split; [exact Hd|].
  split; [exact Hm|]. split; [exact (Hrun Hsome)|].
  split; [exact Hm2|]. split; [exact Hrun2|].
  split; [exact Hne'|]. split; [exact Hf'|].
  exists w'. split; [exact Hret | exact Hfs].
Defined.

(** ** Return values and the final verdict *)

Section Verdict.

Context {FS : Type} {OS : FileSystem FS} {R : Type} {RE : Regexp R}.

(** An [if flag { result = t(...) }] whose [t] returns 0 leaves [result]
    at 0. *)
Lemma assign_zero (flag : bool) (t : Run FS Z) :
  (forall w, exists w', t w = Returned 0 w') ->
  forall w, exists w', (if flag then t else ret 0) w = Returned 0 w'.
Proof.
  intros Ht w. destruct flag; [apply Ht|]. exists w. reflexivity.
Qed.

(** Unless both case flags are set, the transformation stage returns 0. *)
Lemma transform_returns_zero rev cfg files (w : World FS) :
  lowerArg cfg && upperArg cfg = false ->
  exists w', transform rev cfg files w = Returned 0 w'.
Proof.
  intros Hcase. unfold transform.
  destruct (assign_zero (negb (isEmpty (prefixArg cfg))) _
              (addPrefix_returns_zero cfg files (prefixArg cfg)) w) as (w1 & H1).
  unfold bind at 1. rewrite H1.
  destruct (assign_zero (negb (isEmpty (suffixArg cfg))) _
              (addSuffix_returns_zero cfg files (suffixArg cfg)) w1) as (w2 & H2).
  unfold bind at 1. rewrite H2.
  destruct (assign_zero (negb (isEmpty (indexArg cfg))) _
              (indexName_returns_zero cfg files (indexArg cfg) (numArg cfg)) w2)
    as (w3 & H3).
  unfold bind at 1. rewrite H3.
  assert (Hguard : Bool.eqb (lowerArg cfg) true && Bool.eqb (upperArg cfg) true = false).
  { destruct (lowerArg cfg), (upperArg cfg); try reflexivity; discriminate Hcase. }
  unfold bind at 1. rewrite Hguard. unfold ret at 1.
  destruct (assign_zero (Bool.eqb (lowerExtArg cfg) true) _
              (lowercaseExtension_returns_zero rev cfg files) w3) as (w4 & H4).
  unfold bind at 1. rewrite H4.
  destruct (assign_zero (Bool.eqb (lowerArg cfg) true) _
              (lowercaseFiles_returns_zero cfg files) w4) as (w5 & H5).
  unfold bind at 1. rewrite H5.
  destruct (assign_zero (Bool.eqb (upperArg cfg) true) _
              (uppercaseFiles_returns_zero cfg files) w5) as (w6 & H6).
  unfold bind at 1. rewrite H6.
  exists w6. reflexivity.
Qed.

(** Once [renameFiles] has returned 0, [main] prints its verdict by the
    failure counter alone. *)
Lemma main_verdict rev cfg dirs files (w w1 w2 : World FS) :
  flagsInit cfg w = Returned tt w ->
  getFilesFromDir (targetArg cfg) w = Returned (dirs, files) w1 ->
  renameFiles rev cfg dirs files w1 = Returned 0 w2 ->
  main rev cfg w
  = Returned tt (printed (if operationSuccessful w2 =? 0
                          then renamingComplete else notAllRenamed) w2).
Proof.
  intros Hflags Hlist Hren. unfold main.
  unfold bind at 1. rewrite Hflags.
  unfold bind at 1. rewrite Hlist.
  unfold bind at 1. rewrite Hren.
  unfold bind, getOperationSuccessful. cbn [Z.eqb andb].
  destruct (operationSuccessful w2 =? 0); reflexivity.
Qed.

(** C10 (as amended). Each of the six transformers comes back with 0 for
    every list and world, however many of its [writeFile] calls failed.
    Unless the lowercase and the uppercase flag are both set, the
    transformation stage therefore returns 0, so does [renameFiles] whenever
    the file selection hands it a list, and [main] then chooses between its
    two closing lines by the failure counter alone. *)
Theorem C10_transformers_return_zero rev cfg :
  (forall names prefix (w : World FS), exists w', addPrefix cfg names prefix w = Returned 0 w')
  /\ (forall names suffix (w : World FS), exists w', addSuffix cfg names suffix w = Returned 0 w')
  /\ (forall names newname count (w : World FS),
        exists w', indexName cfg names newname count w = Returned 0 w')
  /\ (forall names (w : World FS), exists w', lowercaseExtension rev cfg names w = Returned 0 w')
  /\ (forall names (w : World FS), exists w', lowercaseFiles cfg names w = Returned 0 w')
  /\ (forall names (w : World FS), exists w', uppercaseFiles cfg names w = Returned 0 w')
  /\ (lowerArg cfg && upperArg cfg = false ->
      forall dir files dir' L m chosen (w w1 w2 w3 : World FS),
        descend cfg dir files w = Returned (dir', L) w1 ->
        matchFiles rev cfg L w1 = Returned m w2 ->
        chooseFiles cfg L m w2 = Returned (Some chosen) w3 ->
        exists w4, renameFiles rev cfg dir files w = Returned 0 w4
                   /\ transform rev cfg chosen w3 = Returned 0 w4)
  /\ (forall dirs files (w w1 w2 : World FS),
        flagsInit cfg w = Returned tt w ->
        getFilesFromDir (targetArg cfg) w = Returned (dirs, files) w1 ->
        renameFiles rev cfg dirs files w1 = Returned 0 w2 ->
        main rev cfg w
        = Returned tt (printed (if operationSuccessful w2 =? 0
                                then renamingComplete else notAllRenamed) w2)).
Proof.
  split; [intros; apply addPrefix_returns_zero|].
  split; [intros; apply addSuffix_returns_zero|].
  split; [intros; apply indexName_returns_zero|].
  split; [intros; apply lowercaseExtension_returns_zero|].
  split; [intros; apply lowercaseFiles_returns_zero|].
  split; [intros; apply uppercaseFiles_returns_zero|].
  split.
  - intros Hcase dir files dir' L m chosen w w1 w2 w3 Hd Hm Hc.
    destruct (transform_returns_zero rev cfg chosen w3 Hcase) as (w4 & Ht).
    exists w4. split; [|exact Ht].
    unfold renameFiles. unfold bind at 1. rewrite Hd.
    unfold bind at 1. rewrite Hm.
    unfold bind at 1. rewrite Hc. exact Ht.
  - intros dirs files w w1 w2. apply main_verdict.
Qed.

End Verdict.

(** The run -u -x ^a -t d on /home/d: a.TXT becomes A.TXT, b.txt stays, and
    the run closes with its success line. *)
Lemma C10_transformers_return_zero_witness :
  lowerArg (Inputs.upperMatching false) && upperArg (Inputs.upperMatching false) = false
  /\ renameFiles Renamer_go (Inputs.upperMatching false)
       [] ["/home/d/a.TXT"; "/home/d/b.txt"] (boot Inputs.pair)
     = Returned 0
         {| fs := {| Sample.wd := "/home";
                     Sample.table := [("/home", Sample.Directory);
                                      ("/home/d", Sample.Directory);
                                      ("/home/d/b.txt", Sample.Regular "B");
                                      ("/home/d/A.TXT", Sample.Regular "A")] |};
            stdout := ["Renaming /home/d/a.TXT to /home/d/A.TXT" ++ LF];
            stderr := [];
            operationSuccessful := 0 |}
  /\ Sample.run (main Renamer_go (Inputs.upperMatching false)) Inputs.pair
     = Returned tt
         {| fs := {| Sample.wd := "/home";
                     Sample.table := [("/home", Sample.Directory);
                                      ("/home/d", Sample.Directory);
                                      ("/home/d/b.txt", Sample.Regular "B");
                                      ("/home/d/A.TXT", Sample.Regular "A")] |};
            stdout := ["Renaming /home/d/a.TXT to /home/d/A.TXT" ++ LF; renamingComplete];
            stderr := [];
            operationSuccessful := 0 |}.
Proof.
  assert (Hcase : lowerArg (Inputs.upperMatching false)
                  && upperArg (Inputs.upperMatching false) = false) by reflexivity.
  split; [exact Hcase|].
  destruct (C10_transformers_return_zero (FS := Sample.Disk) (R := Sample.Pattern)
              Renamer_go (Inputs.upperMatching false))
    as (_ & _ & _ & _ & _ & _ & Hstage & Hmain).
  split.
  - destruct (Hstage Hcase [] ["/home/d/a.TXT"; "/home/d/b.txt"]
                [] ["/home/d/a.TXT"; "/home/d/b.txt"]
                ["/home/d/a.TXT"] ["/home/d/a.TXT"]
                (boot Inputs.pair) (boot Inputs.pair) (boot Inputs.pair) (boot Inputs.pair)
                eq_refl eq_refl eq_refl) as (w4 & Hren & Htr).
    rewrite Hren. rewrite <- Htr. reflexivity.
  - unfold Sample.run.
    rewrite (Hmain [] ["/home/d/a.TXT"; "/home/d/b.txt"] (boot Inputs.pair) (boot Inputs.pair)
               (final (renameFiles Renamer_go (Inputs.upperMatching false)
                         [] ["/home/d/a.TXT"; "/home/d/b.txt"] (boot Inputs.pair))));
      reflexivity.
Defined.

(** C10 as stated fails: with -l and -u both given the file selection hands
    its list to the transformation stage, and [renameFiles] does not return
    0: the process ends there with status 2. *)
Lemma C10_both_case_flags_end_the_process :
  chooseFiles Inputs.bothCases ["/home/d/a.TXT"; "/home/d/b.txt"] [] (boot Inputs.pair)
  = Returned (Some ["/home/d/a.TXT"; "/home/d/b.txt"]) (boot Inputs.pair)
  /\ value (renameFiles Renamer_go Inputs.bothCases
              [] ["/home/d/a.TXT"; "/home/d/b.txt"] (boot Inputs.pair)) <> Some 0
  /\ status (renameFiles Renamer_go Inputs.bothCases
               [] ["/home/d/a.TXT"; "/home/d/b.txt"] (boot Inputs.pair)) = Some 2.
Proof. split; [reflexivity|]. split; [discriminate | reflexivity]. Qed.

(** ** Where the two copies of the program part from the specification *)

(** C1. A recursive run on /r, which holds top.txt, a/mid.txt and
    a/b/deep.txt: the listing of /r gives the directory /r/a; the recursive
    step lists /r/a, adds /r/a/b to the directories and goes no further,
    so deep.txt, which is on the disk, is not in the file list and the run
    reports two renames. *)
Theorem C1_recursive_run_stops_one_level_down (rev : Revision) :
  Sample.run (getFilesFromDir "/r") Inputs.nested
  = Returned (["/r/a"], ["/r/top.txt"]) (boot Inputs.nested)
  /\ descend Inputs.recursivePrefix ["/r/a"] ["/r/top.txt"] (boot Inputs.nested)
     = Returned (["/r/a"; "/r/a/b"], ["/r/top.txt"; "/r/a/mid.txt"]) (boot Inputs.nested)
  /\ Sample.lookup (Sample.table Inputs.nested) "/r/a/b/deep.txt" = Some (Sample.Regular "d")
  /\ ~ In "/r/a/b/deep.txt" ["/r/top.txt"; "/r/a/mid.txt"]
  /\ Sample.run (main rev Inputs.recursivePrefix) Inputs.nested
     = Returned tt
         {| fs := Inputs.nested;
            stdout := [dryRunLine "/r/top.txt" "/r/x_top.txt";
                       dryRunLine "/r/a/mid.txt" "/r/a/x_mid.txt";
                       renamingComplete];
            stderr := [];
            operationSuccessful := 0 |}.
Proof.
  split; [reflexivity|]. split; [reflexivity|]. split; [reflexivity|].
  split.
  - intros [H|[H|[]]]; discriminate H.
  - destruct rev; reflexivity.
Qed.

(** C2. In [Renamer.go] the name computed for /docs/MyFile.TXT is
    /docs/MyFile.txt, but [lowercaseExtension] hands nothing to [writeFile]:
    it returns 0 in the world it was given, and the run -e on /docs leaves
    the disk as it was.  The revised copy renames the file. *)
Theorem C2_lowercase_extension_not_applied :
  lowercaseExtensionName "/docs/MyFile.TXT" = "/docs/MyFile.txt"
  /\ lowercaseExtension Renamer_go Inputs.lowerExtOnly ["/docs/MyFile.TXT"] (boot Inputs.docs)
     = Returned 0 (boot Inputs.docs)
  /\ Sample.run (main Renamer_go Inputs.lowerExtOnly) Inputs.docs
     = Returned tt (printed renamingComplete (boot Inputs.docs))
  /\ Sample.run (main Revised Inputs.lowerExtOnly) Inputs.docs
     = Returned tt
         {| fs := {| Sample.wd := "/";
                     Sample.table := [("/docs", Sample.Directory);
                                      ("/docs/MyFile.txt", Sample.Regular "text")] |};
            stdout := ["Renaming /docs/MyFile.TXT to /docs/MyFile.txt" ++ LF;
                       renamingComplete];
            stderr := [];
            operationSuccessful := 0 |}.
Proof. repeat split. Qed.

(** C4. The run -l -u -p x_ on /home/d: both files have been renamed by the
    prefix step when the two case flags are found set and the process ends
    with status 2. *)
Theorem C4_case_flags_checked_after_renaming (rev : Revision) :
  status (Sample.run (main rev Inputs.bothCasesPrefix) Inputs.pair) = Some 2
  /\ fs (final (Sample.run (main rev Inputs.bothCasesPrefix) Inputs.pair))
     = {| Sample.wd := "/home";
          Sample.table := [("/home", Sample.Directory); ("/home/d", Sample.Directory);
                           ("/home/d/x_a.TXT", Sample.Regular "A");
                           ("/home/d/x_b.txt", Sample.Regular "B")] |}
  /\ stdout (final (Sample.run (main rev Inputs.bothCasesPrefix) Inputs.pair))
     = ["Renaming /home/d/a.TXT to /home/d/x_a.TXT" ++ LF;
        "Renaming /home/d/b.txt to /home/d/x_b.txt" ++ LF]
  /\ stderr (final (Sample.run (main rev Inputs.bothCasesPrefix) Inputs.pair))
     = ["Can't use both lowercase and uppercase, choose one only!" ++ LF; usageMessage].
Proof. destruct rev; repeat split. Qed.

(** C5. The run -x a, with none of the six transformation flags: [flagsInit]
    lets it through, the target directory is listed (a missing one is
    reported by [os.Lstat]), nothing is printed on the error stream about
    usage and the process is not ended; [Renamer.go] closes with its success
    line, the revised copy with the no-match failure. *)
Theorem C5_filter_alone_is_not_rejected :
  flagsInit (Inputs.filterOnly "d") (boot Inputs.pair) = Returned tt (boot Inputs.pair)
  /\ Sample.run (main Renamer_go (Inputs.filterOnly "d")) Inputs.pair
     = Returned tt (printed renamingComplete (boot Inputs.pair))
  /\ Sample.run (main Revised (Inputs.filterOnly "d")) Inputs.pair
     = Returned tt
         {| fs := Inputs.pair;
            stdout := [notAllRenamed];
            stderr := ["No files matched, check the correctness of your regexp" ++ LF];
            operationSuccessful := 0 |}
  /\ stderr (final (Sample.run (main Renamer_go (Inputs.filterOnly "/nowhere")) Inputs.pair))
     = ["lstat /nowhere: no such file or directory";
        "No files matched, check the correctness of your regexp" ++ LF].
Proof. repeat split. Qed.

(** C6. The pattern ( does not compile.  On the empty directory /e the run
    never compiles it: with -f it prints the no-match notice and closes with
    the success line, without -f it returns through the no-match branch; in
    neither case is the usage text printed or the process ended.  On /home/d,
    where there is a file to test, the same pattern ends the process with
    status 2. *)
Theorem C6_bad_pattern_unseen_on_empty_list (rev : Revision) :
  succeeded (regexp_Compile (R := Sample.Pattern) "(") = false
  /\ Sample.run (main rev (Inputs.badPattern "/e" true)) Inputs.hollow
     = Returned tt
         {| fs := Inputs.hollow;
            stdout := [noMatchNotice; renamingComplete];
            stderr := [];
            operationSuccessful := 0 |}
  /\ Sample.run (main rev (Inputs.badPattern "/e" false)) Inputs.hollow
     = Returned tt
         {| fs := Inputs.hollow;
            stdout := [notAllRenamed];
            stderr := ["No files matched, check the correctness of your regexp" ++ LF];
            operationSuccessful := 0 |}
  /\ status (Sample.run (main rev (Inputs.badPattern "d" false)) Inputs.pair) = Some 2.
Proof. destruct rev; repeat split. Qed.

(** * Further properties of the pipeline *)

(** ** What a run leaves alone *)

Section Frames.

Context {FS : Type} {OS : FileSystem FS} {R : Type} {RE : Regexp R}.

Lemma stays_ret {A X} (proj : World FS -> X) (a : A) : stays proj (ret a).
Proof. intros w. reflexivity. Qed.

Lemma stays_bind {A B X} (proj : World FS -> X) (c : Run FS A) (k : A -> Run FS B) :
  stays proj c -> (forall a, stays proj (k a)) -> stays proj (bind c k).
Proof.
  intros Hc Hk w. unfold bind. specialize (Hc w).
  destruct (c w) as [a w1|code w1]; cbn [final] in *.
  - rewrite (Hk a w1). exact Hc.
  - exact Hc.
Qed.

Lemma stays_forRange {A S X} (proj : World FS -> X) (body : S -> A -> Run FS S) :
  (forall s x, stays proj (body s x)) ->
  forall xs s, stays proj (forRange xs s body).
Proof.
  intros Hbody xs. induction xs as [|x rest IH]; intros s; simpl.
  - apply stays_ret.
  - apply stays_bind; [apply Hbody | intros s'; apply IH].
Qed.

Section Reading.

Variable X : Type.
Variable proj : World FS -> X.
Hypothesis Hblind : blindToStreams proj.

Lemma stays_Fprintf_Stdout text : stays proj (Fprintf_Stdout text).
Proof. intros w. apply (Hblind text w). Qed.

Lemma stays_Fprintf_Stderr text : stays proj (Fprintf_Stderr text).
Proof. intros w. apply (Hblind text w). Qed.

Lemma stays_printUsage {A} msg : stays proj (printUsage (A := A) msg).
Proof.
  unfold printUsage.
  apply stays_bind; [apply stays_Fprintf_Stderr | intros _].
  apply stays_bind; [apply stays_Fprintf_Stderr | intros _].
  intros w. reflexivity.
Qed.

Lemma stays_reading {A} (call : FS -> A) : stays proj (reading call).
Proof. intros w. reflexivity. Qed.

Lemma stays_flagsInit cfg : stays proj (flagsInit cfg).
Proof.
  unfold flagsInit.
  match goal with |- context [if ?b then _ else _] => destruct b end;
    [apply stays_printUsage | apply stays_ret].
Qed.

Lemma stays_getFilesFromDir dirname : stays proj (getFilesFromDir dirname).
Proof.
  unfold getFilesFromDir, filepath_Abs.
  repeat first
    [ apply stays_ret
    | apply stays_reading
    | apply stays_Fprintf_Stderr
    | apply stays_bind; [|intros ?]
    | match goal with
      | |- stays _ (match ?x with Ok _ => _ | Err _ => _ end) => destruct x
      | |- stays _ (if ?b then _ else _) => destruct b
      end ].
Qed.

Lemma stays_descend cfg dir files : stays proj (descend cfg dir files).
Proof.
  unfold descend. destruct (Bool.eqb (recursiveArg cfg) true); [|apply stays_ret].
  apply stays_forRange. intros [ds fsx] d.
  apply stays_bind; [apply stays_getFilesFromDir | intros [nd nf]; apply stays_ret].
Qed.

Lemma stays_matchFiles rev cfg files : stays proj (matchFiles rev cfg files).
Proof.
  unfold matchFiles. destruct (negb (isEmpty (regexpArg cfg))); [|apply stays_ret].
  apply stays_forRange. intros acc f.
  destruct (regexp_Compile (regexpArg cfg)) as [re|e].
  - destruct rev; [destruct (Bool.eqb _ _)|]; apply stays_ret.
  - apply stays_bind; [apply stays_Fprintf_Stderr | intros _; apply stays_printUsage].
Qed.

Lemma stays_chooseFiles cfg files matchingfiles :
  stays proj (chooseFiles cfg files matchingfiles).
Proof.
  unfold chooseFiles.
  repeat first
    [ apply stays_ret
    | apply stays_Fprintf_Stdout
    | apply stays_Fprintf_Stderr
    | apply stays_bind; [|intros ?]
    | match goal with
      | |- stays _ (if ?b then _ else _) => destruct b
      end ].
Qed.

(** Whatever the transformation stage keeps of the world, the whole run
    keeps. *)
Lemma stays_main rev cfg :
  (forall files, stays proj (transform rev cfg files)) -> stays proj (main rev cfg).
Proof.
  intros Ht. unfold main, renameFiles.
  apply stays_bind; [apply stays_flagsInit | intros _].
  apply stays_bind; [apply stays_getFilesFromDir | intros [directories files]].
  apply stays_bind.
  - apply stays_bind; [apply stays_descend | intros [dir' L]].
    apply stays_bind; [apply stays_matchFiles | intros m].
    apply stays_bind; [apply stays_chooseFiles | intros [chosen|]];
      [apply Ht | apply stays_ret].
  - intros r. apply stays_bind; [intros w; reflexivity | intros failures].
    destruct ((r =? 0) && (failures =? 0)); apply stays_Fprintf_Stdout.
Qed.

End Reading.

Lemma fs_blindToStreams : blindToStreams (fs (FS := FS)).
Proof. intros text w. split; reflexivity. Qed.

Lemma disk_and_counter_blindToStreams :
  blindToStreams (fun w : World FS => (fs w, operationSuccessful w)).
Proof. intros text w. split; reflexivity. Qed.

Lemma stays_writeFile_dry cfg oldname newname :
  dryrunArg cfg = true -> stays fs (writeFile cfg oldname newname).
Proof.
  intros Hd w. unfold writeFile, overwriteGuard, perform. rewrite Hd. run_unfold.
  destruct (succeeded (os_Lstat (fs w) newname) && Bool.eqb (forceArg cfg) false);
    reflexivity.
Qed.

Lemma stays_rename_loop_dry cfg (name : string -> string) names :
  dryrunArg cfg = true ->
  stays fs (forRange names tt (fun _ f => writeFile cfg f (name f)) ;; ret 0).
Proof.
  intros Hd. apply stays_bind; [|intros _; apply stays_ret].
  apply stays_forRange. intros _ f. apply stays_writeFile_dry. exact Hd.
Qed.

Lemma stays_transform_dry rev cfg files :
  dryrunArg cfg = true -> stays fs (transform rev cfg files).
Proof.
  intros Hd. unfold transform.
  apply stays_bind;
    [destruct (negb _); [apply (stays_rename_loop_dry cfg _ _ Hd) | apply stays_ret]
    | intros ?].
  apply stays_bind;
    [destruct (negb _); [apply (stays_rename_loop_dry cfg _ _ Hd) | apply stays_ret]
    | intros ?].
  apply stays_bind; [|intros ?].
  { destruct (negb _); [|apply stays_ret]. unfold indexName.
    apply stays_bind; [|intros _; apply stays_ret].
    apply stays_forRange. intros count f.
    apply stays_bind; [apply stays_writeFile_dry; exact Hd | intros _; apply stays_ret]. }
  apply stays_bind; [|intros ?].
  { destruct (_ && _); [apply (stays_printUsage _ _ fs_blindToStreams) | apply stays_ret]. }
  apply stays_bind; [|intros ?].
  { destruct (Bool.eqb _ _); [|apply stays_ret]. unfold lowercaseExtension.
    apply stays_bind; [|intros _; apply stays_ret].
    apply stays_forRange. intros _ f.
    destruct rev; [apply stays_ret | apply stays_writeFile_dry; exact Hd]. }
  apply stays_bind;
    [destruct (Bool.eqb _ _); [apply (stays_rename_loop_dry cfg _ _ Hd) | apply stays_ret]
    | intros ?].
  apply stays_bind;
    [destruct (Bool.eqb _ _); [apply (stays_rename_loop_dry cfg _ _ Hd) | apply stays_ret]
    | intros ?].
  apply stays_ret.
Qed.

(** A dry run never changes the file system: whatever the other flags, the
    copy of the program and the way the run ends, [main] under -n leaves the
    disk it found. *)
Theorem dry_run_leaves_the_disk rev cfg (w : World FS) :
  dryrunArg cfg = true -> fs (final (main rev cfg w)) = fs w.
Proof.
  intros Hd. apply (stays_main _ fs fs_blindToStreams rev cfg).
  intros files. apply stays_transform_dry. exact Hd.
Qed.

(** With no transformation that applies anything the stage is [return 0]. *)
Lemma transform_without_flags rev cfg files (w : World FS) :
  prefixArg cfg = "" -> suffixArg cfg = "" -> indexArg cfg = "" ->
  lowerArg cfg = false -> upperArg cfg = false ->
  rev = Renamer_go \/ lowerExtArg cfg = false ->
  transform rev cfg files w = Returned 0 w.
Proof.
  intros Hp Hs Hi Hl Hu He. unfold transform. rewrite Hp, Hs, Hi, Hl, Hu.
  cbn [isEmpty String.eqb negb Bool.eqb andb]. unfold bind at 1 2 3 4. unfold ret at 1 2 3 4.
  destruct He as [-> | He].
  - destruct (Bool.eqb (lowerExtArg cfg) true).
    + unfold bind at 1. rewrite lowercaseExtension_Renamer_go_idle. reflexivity.
    + reflexivity.
  - rewrite He. reflexivity.
Qed.

(** A run with a filter and no renaming flag (in [Renamer.go], also with -e
    alone) only reads: the disk and the failure counter end as they
    began. *)
Theorem run_without_renaming_flags_only_reads rev cfg (w : World FS) :
  prefixArg cfg = "" -> suffixArg cfg = "" -> indexArg cfg = "" ->
  lowerArg cfg = false -> upperArg cfg = false ->
  rev = Renamer_go \/ lowerExtArg cfg = false ->
  fs (final (main rev cfg w)) = fs w
  /\ operationSuccessful (final (main rev cfg w)) = operationSuccessful w.
Proof.
  intros Hp Hs Hi Hl Hu He.
  assert (H : (fun w : World FS => (fs w, operationSuccessful w)) (final (main rev cfg w))
              = (fs w, operationSuccessful w)).
  { apply (stays_main _ _ disk_and_counter_blindToStreams rev cfg).
    intros files w0. rewrite (transform_without_flags rev cfg files w0 Hp Hs Hi Hl Hu He).
    reflexivity. }
  cbv beta in H. injection H as H1 H2. split; assumption.
Qed.

(** With no flag at all [main] is [printUsage]: two lines on the error
    stream and status 2, nothing listed and nothing else changed. *)
Theorem run_without_flags_is_usage rev cfg (w : World FS) :
  regexpArg cfg = "" -> prefixArg cfg = "" -> suffixArg cfg = "" -> indexArg cfg = "" ->
  lowerExtArg cfg = false -> lowerArg cfg = false -> upperArg cfg = false ->
  main rev cfg w
  = Exited 2
      (complained usageMessage
         (complained ("At least one of the mandatory actions must be given, nothing to do..."
                      ++ LF) w)).
Proof.
  intros Hx Hp Hs Hi He Hl Hu. unfold main, flagsInit.
  rewrite Hx, Hp, Hs, Hi, He, Hl, Hu. reflexivity.
Qed.

End Frames.

Lemma dry_run_leaves_the_disk_witness :
  dryrunArg Inputs.dryEverything = true
  /\ fs (final (Sample.run (main Revised Inputs.dryEverything) Inputs.pair)) = Inputs.pair.
Proof.
  split; [reflexivity|].
  exact (dry_run_leaves_the_disk (R := Sample.Pattern) Revised Inputs.dryEverything
           (boot Inputs.pair) eq_refl).
Defined.

Lemma run_without_renaming_flags_only_reads_witness :
  prefixArg Inputs.lowerExtOnly = "" /\ suffixArg Inputs.lowerExtOnly = ""
  /\ indexArg Inputs.lowerExtOnly = "" /\ lowerArg Inputs.lowerExtOnly = false
  /\ upperArg Inputs.lowerExtOnly = false
  /\ (Renamer_go = Renamer_go \/ lowerExtArg Inputs.lowerExtOnly = false)
  /\ fs (final (Sample.run (main Renamer_go Inputs.lowerExtOnly) Inputs.docs)) = Inputs.docs.
Proof.
  repeat (split; [reflexivity|]). split; [left; reflexivity|].
  exact (proj1 (run_without_renaming_flags_only_reads (R := Sample.Pattern)
                  Renamer_go Inputs.lowerExtOnly (boot Inputs.docs)
                  eq_refl eq_refl eq_refl eq_refl eq_refl (or_introl eq_refl))).
Defined.

Lemma run_without_flags_is_usage_witness :
  regexpArg defaults = "" /\ prefixArg defaults = "" /\ suffixArg defaults = ""
  /\ indexArg defaults = "" /\ lowerExtArg defaults = false /\ lowerArg defaults = false
  /\ upperArg defaults = false
  /\ status (Sample.run (main Renamer_go defaults) Inputs.pair) = Some 2.
Proof.
  repeat (split; [reflexivity|]).
  unfold Sample.run.
  rewrite (run_without_flags_is_usage (R := Sample.Pattern) Renamer_go defaults
             (boot Inputs.pair) eq_refl eq_refl eq_refl eq_refl eq_refl eq_refl eq_refl).
  reflexivity.
Defined.

(** ** What the matcher hands on *)

Section Selection.

Context {FS : Type} {OS : FileSystem FS} {R : Type} {RE : Regexp R}.

(** In [Renamer.go], with a pattern that compiles and matches some base
    name, the transformation stage is run on exactly the members of the list
    whose base name matches, in the order of the list, in the world the
    recursive step left. *)
Theorem Renamer_go_transforms_exactly_the_matches cfg (re : R) dir files dir' L
    (w w1 : World FS) :
  regexpArg cfg <> "" ->
  regexp_Compile (regexpArg cfg) = Ok re ->
  descend cfg dir files w = Returned (dir', L) w1 ->
  matchesOf re L <> [] ->
  renameFiles Renamer_go cfg dir files w = transform Renamer_go cfg (matchesOf re L) w1
  /\ (forall f, In f (matchesOf re L)
                <-> In f L /\ MatchString re (filepath.Base f) = true)
  /\ Subsequence (matchesOf re L) L.
Proof.
  intros Hne Hre Hd Hsome. split; [|split].
  - unfold renameFiles. unfold bind at 1. rewrite Hd.
    unfold bind at 1. rewrite (matchFiles_compiled Renamer_go cfg re L w1 Hne Hre).
    unfold chooseFiles.
    destruct (matchesOf re L) as [|m ms]; [contradiction Hsome; reflexivity|].
    reflexivity.
  - intros f. unfold matchesOf. rewrite filter_In. reflexivity.
  - apply filter_Subsequence.
Qed.

(** With no pattern every file that comes out of the recursive step goes to
    the transformation stage, in either copy. *)
Theorem no_pattern_transforms_every_file rev cfg dir files dir' L (w w1 : World FS) :
  regexpArg cfg = "" ->
  descend cfg dir files w = Returned (dir', L) w1 ->
  renameFiles rev cfg dir files w = transform rev cfg L w1.
Proof.
  intros Hx Hd. unfold renameFiles. unfold bind at 1. rewrite Hd.
  unfold matchFiles, chooseFiles. rewrite Hx. reflexivity.
Qed.

(** In the revised copy the matcher keeps no file, whatever the pattern
    matches: without force every run with a pattern returns 1 before the
    transformation stage, and with force the stage gets the whole list. *)
Theorem Revised_pattern_matches_nothing cfg (re : R) dir files dir' L (w w1 : World FS) :
  regexpArg cfg <> "" ->
  regexp_Compile (regexpArg cfg) = Ok re ->
  descend cfg dir files w = Returned (dir', L) w1 ->
  matchFiles Revised cfg L w1 = Returned [] w1
  /\ renameFiles Revised cfg dir files w
     = if forceArg cfg
       then transform Revised cfg L (printed noMatchNotice w1)
       else Returned 1 (complained noMatchComplaint w1).
Proof.
  intros Hne Hre Hd.
  pose proof (matchFiles_compiled Revised cfg re L w1 Hne Hre) as Hm.
  split; [exact Hm|].
  unfold renameFiles. unfold bind at 1. rewrite Hd.
  unfold bind at 1. rewrite Hm.
  unfold chooseFiles, isEmpty. cbn [length Nat.leb].
  apply String.eqb_neq in Hne. rewrite Hne. cbn [negb].
  destruct (forceArg cfg); reflexivity.
Qed.

(** A pattern that does not compile ends the run as soon as there is one
    file to test: three lines on the error stream, status 2, and no file
    handed to any transformer. *)
Theorem bad_pattern_with_a_file_ends_the_run rev cfg e dir files dir' f rest
    (w w1 : World FS) :
  regexpArg cfg <> "" ->
  regexp_Compile (R := R) (regexpArg cfg) = Err e ->
  descend cfg dir files w = Returned (dir', f :: rest) w1 ->
  renameFiles rev cfg dir files w
  = Exited 2
      (complained usageMessage
         (complained
            ("You must give a valid regexp (or none, to operate on all files). Alternatively, add -force to force renaming all files, whether they match the regexp or not"
             ++ LF)
            (complained ("Invalid regexp: " ++ regexpArg cfg ++ LF) w1))).
Proof.
  intros Hne Hre Hd. unfold renameFiles. unfold bind at 1. rewrite Hd.
  unfold matchFiles, isEmpty. apply String.eqb_neq in Hne. rewrite Hne. cbn [negb].
  cbn [forRange]. rewrite Hre. reflexivity.
Qed.

End Selection.

Lemma Renamer_go_transforms_exactly_the_matches_witness :
  regexpArg (Inputs.upperMatching false) <> ""
  /\ renameFiles Renamer_go (Inputs.upperMatching false)
       [] ["/home/d/a.TXT"; "/home/d/b.txt"] (boot Inputs.pair)
     = transform Renamer_go (Inputs.upperMatching false) ["/home/d/a.TXT"] (boot Inputs.pair).
Proof.
  assert (Hne : regexpArg (Inputs.upperMatching false) <> "") by discriminate.
  assert (Hre : regexp_Compile (regexpArg (Inputs.upperMatching false))
                = Ok {| Sample.fromStart := true; Sample.toEnd := false;
                        Sample.symbols := [Some "a"%char] |}) by reflexivity.
  assert (Hd : descend (Inputs.upperMatching false) [] ["/home/d/a.TXT"; "/home/d/b.txt"]
                 (boot Inputs.pair)
               = Returned ([], ["/home/d/a.TXT"; "/home/d/b.txt"]) (boot Inputs.pair))
    by reflexivity.
  assert (Hsome : matchesOf {| Sample.fromStart := true; Sample.toEnd := false;
                               Sample.symbols := [Some "a"%char] |}
                    ["/home/d/a.TXT"; "/home/d/b.txt"] <> []) by discriminate.
  split; [exact Hne|].
  exact (proj1 (Renamer_go_transforms_exactly_the_matches
                  (Inputs.upperMatching false) _ _ _ _ _ _ _ Hne Hre Hd Hsome)).
Defined.

Lemma no_pattern_transforms_every_file_witness :
  regexpArg (Inputs.prefixing false true false) = ""
  /\ renameFiles Revised (Inputs.prefixing false true false)
       [] ["/home/d/a.TXT"; "/home/d/b.txt"] (boot Inputs.pair)
     = transform Revised (Inputs.prefixing false true false)
         ["/home/d/a.TXT"; "/home/d/b.txt"] (boot Inputs.pair).
Proof.
  split; [reflexivity|].
  apply (no_pattern_transforms_every_file (R := Sample.Pattern) Revised
           (Inputs.prefixing false true false)
           [] ["/home/d/a.TXT"; "/home/d/b.txt"] []); reflexivity.
Defined.

Lemma Revised_pattern_matches_nothing_witness :
  regexpArg (Inputs.upperMatching false) <> ""
  /\ value (renameFiles Revised (Inputs.upperMatching false)
              [] ["/home/d/a.TXT"; "/home/d/b.txt"] (boot Inputs.pair)) = Some 1.
Proof.
  assert (Hne : regexpArg (Inputs.upperMatching false) <> "") by discriminate.
  assert (Hre : regexp_Compile (regexpArg (Inputs.upperMatching false))
                = Ok {| Sample.fromStart := true; Sample.toEnd := false;
                        Sample.symbols := [Some "a"%char] |}) by reflexivity.
  assert (Hd : descend (Inputs.upperMatching false) [] ["/home/d/a.TXT"; "/home/d/b.txt"]
                 (boot Inputs.pair)
               = Returned ([], ["/home/d/a.TXT"; "/home/d/b.txt"]) (boot Inputs.pair))
    by reflexivity.
  split; [exact Hne|].
  rewrite (proj2 (Revised_pattern_matches_nothing
                    (Inputs.upperMatching false) _ _ _ _ _ _ _ Hne Hre Hd)).
  reflexivity.
Defined.

Lemma bad_pattern_with_a_file_ends_the_run_witness :
  regexpArg (Inputs.badPattern "d" true) <> ""
  /\ status (renameFiles Renamer_go (Inputs.badPattern "d" true)
               [] ["/home/d/a.TXT"; "/home/d/b.txt"] (boot Inputs.pair)) = Some 2.
Proof.
  assert (Hne : regexpArg (Inputs.badPattern "d" true) <> "") by discriminate.
  assert (Hre : regexp_Compile (R := Sample.Pattern) (regexpArg (Inputs.badPattern "d" true))
                = Err "error parsing regexp: (") by reflexivity.
  assert (Hd : descend (Inputs.badPattern "d" true) [] ["/home/d/a.TXT"; "/home/d/b.txt"]
                 (boot Inputs.pair)
               = Returned ([], ["/home/d/a.TXT"; "/home/d/b.txt"]) (boot Inputs.pair))
    by reflexivity.
  split; [exact Hne|].
  rewrite (bad_pattern_with_a_file_ends_the_run Renamer_go
             (Inputs.badPattern "d" true) _ _ _ _ _ _ _ _ Hne Hre Hd).
  reflexivity.
Defined.

(** ** Listing and the recursive step *)

Section Traversal.

Context {FS : Type} {OS : FileSystem FS}.

(** The loop of [getFilesFromDir] splits a listing in two, each half in the
    order of the listing. *)
Lemma separate_splits complete_path (filesindir : list FileInfo) :
  separate complete_path filesindir
  = (map (fun i => filepath.Join [complete_path; Name i]) (filter IsDir filesindir),
     map (fun i => filepath.Join [complete_path; Name i])
         (filter (fun i => negb (IsDir i)) filesindir)).
Proof.
  unfold separate.
  assert (Hacc : forall accd accf,
    fold_left
      (fun '(alldirectories, allfiles) f =>
         if IsDir f
         then ((alldirectories ++ [filepath.Join [complete_path; Name f]])%list, allfiles)
         else (alldirectories, (allfiles ++ [filepath.Join [complete_path; Name f]])%list))
      filesindir (accd, accf)
    = ((accd ++ map (fun i => filepath.Join [complete_path; Name i])
                    (filter IsDir filesindir))%list,
       (accf ++ map (fun i => filepath.Join [complete_path; Name i])
                    (filter (fun i => negb (IsDir i)) filesindir))%list)).
  { induction filesindir as [|i rest IH]; intros accd accf; simpl.
    - rewrite !app_nil_r. reflexivity.
    - destruct (IsDir i); simpl; rewrite IH, <- app_assoc; reflexivity. }
  apply (Hacc [] []).
Qed.

(** [getFilesFromDir] always comes back, having changed nothing but the
    error stream, and never with part of a directory: its answer is either
    two empty lists or the two halves of one complete [Readdir] answer, every
    entry in exactly one half under the path it was opened with. *)
Theorem getFilesFromDir_whole_listing_or_nothing dirname (w : World FS) :
  exists dirs files w',
    getFilesFromDir dirname w = Returned (dirs, files) w'
    /\ quiet w w'
    /\ ((dirs = [] /\ files = [])
        \/ exists complete_path dir filesindir,
             os_Open (fs w) complete_path = Ok dir
             /\ file_Readdir (fs w) dir = Ok filesindir
             /\ dirs = map (fun i => filepath.Join [complete_path; Name i])
                           (filter IsDir filesindir)
             /\ files = map (fun i => filepath.Join [complete_path; Name i])
                            (filter (fun i => negb (IsDir i)) filesindir)
             /\ (length dirs + length files = length filesindir)%nat).
Proof.
  assert (Hlen : forall (l : list FileInfo),
            (length (filter IsDir l) + length (filter (fun i => negb (IsDir i)) l)
             = length l)%nat).
  { induction l as [|i l IH]; simpl; [reflexivity|].
    destruct (IsDir i); simpl; lia. }
  unfold getFilesFromDir, filepath_Abs. run_unfold. cbv beta iota.
  repeat match goal with
         | |- context [match ?x with Ok _ => _ | Err _ => _ end] =>
             destruct x eqn:?; cbv beta iota
         | |- context [if ?b then _ else _] => destruct b; cbv beta iota
         end;
    eexists _, _, _;
    (split; [first [reflexivity | rewrite separate_splits; reflexivity]|]);
    (split; [repeat split|]);
    first [ left; split; reflexivity
          | right; eexists _, _, _;
            (split; [eassumption|]); (split; [eassumption|]);
            (split; [reflexivity|]); (split; [reflexivity|]);
            rewrite !length_map; apply Hlen ].
Qed.

(** The answer depends on the disk alone. *)
Lemma getFilesFromDir_listingOn dirname (w : World FS) :
  exists w', getFilesFromDir dirname w = Returned (listingOn (fs w) dirname) w'
             /\ quiet w w'.
Proof.
  unfold listingOn, getFilesFromDir, filepath_Abs. run_unfold.
  cbn [fs boot]. cbv beta iota.
  repeat match goal with
         | |- context [match ?x with Ok _ => _ | Err _ => _ end] =>
             destruct x; cbn [fs boot]; cbv beta iota
         | |- context [if ?b then _ else _] =>
             destruct b; cbn [fs boot]; cbv beta iota
         end;
    eexists; (split; [reflexivity | repeat split]).
Qed.

(** The loop of the recursive step, from any lists carried so far. *)
Lemma descend_loop (dir : list string) : forall (accd accf : list string) (w : World FS),
  exists w',
    forRange dir (accd, accf)
      (fun '(dir, files) d =>
         '(nd, nf) <- getFilesFromDir d ;;
         ret ((dir ++ nd)%list, (files ++ nf)%list)) w
    = Returned ((accd ++ flat_map (fun d => fst (listingOn (fs w) d)) dir)%list,
                (accf ++ flat_map (fun d => snd (listingOn (fs w) d)) dir)%list) w'
    /\ quiet w w'.
Proof.
  induction dir as [|d rest IH]; intros accd accf w; simpl.
  - exists w. rewrite !app_nil_r. split; [reflexivity | apply quiet_refl].
  - unfold bind at 1 2.
    destruct (getFilesFromDir_listingOn d w) as (w1 & Hg & Hq).
    rewrite Hg. destruct (listingOn (fs w) d) as [nd nf] eqn:Hl. unfold ret at 1.
    destruct (IH (accd ++ nd)%list (accf ++ nf)%list w1) as (w2 & Hrest & Hq2).
    exists w2. split; [|exact (quiet_trans _ _ _ Hq Hq2)].
    rewrite Hrest. destruct Hq as (Hfs & _). rewrite Hfs.
    cbn [fst snd]. rewrite <- !app_assoc. reflexivity.
Qed.

(** The recursive step lists each directory it was given, once and in
    order, and appends what it finds: the lists it was given come first, and
    a directory found on the way is added to the directories but not
    listed.  Without the recursive switch the step changes nothing. *)
Theorem descend_lists_the_given_directories cfg dir files (w : World FS) :
  (recursiveArg cfg = true ->
   exists w',
     descend cfg dir files w
     = Returned ((dir ++ flat_map (fun d => fst (listingOn (fs w) d)) dir)%list,
                 (files ++ flat_map (fun d => snd (listingOn (fs w) d)) dir)%list) w'
     /\ quiet w w')
  /\ (recursiveArg cfg = false -> descend cfg dir files w = Returned (dir, files) w).
Proof.
  split; intros Hr; unfold descend; rewrite Hr; cbn [Bool.eqb]; [|reflexivity].
  apply descend_loop.
Qed.

End Traversal.

Lemma descend_lists_the_given_directories_witness :
  recursiveArg Inputs.recursivePrefix = true
  /\ recursiveArg (Inputs.prefixing false true false) = false
  /\ value (descend Inputs.recursivePrefix ["/r/a"] ["/r/top.txt"] (boot Inputs.nested))
     = Some (["/r/a"; "/r/a/b"], ["/r/top.txt"; "/r/a/mid.txt"])
  /\ descend (Inputs.prefixing false true false) ["/r/a"] ["/r/top.txt"] (boot Inputs.nested)
     = Returned (["/r/a"], ["/r/top.txt"]) (boot Inputs.nested).
Proof.
  split; [reflexivity|]. split; [reflexivity|]. split.
  - destruct (proj1 (descend_lists_the_given_directories Inputs.recursivePrefix
                       ["/r/a"] ["/r/top.txt"] (boot Inputs.nested)) eq_refl)
      as (w' & Hd & _).
    rewrite Hd. reflexivity.
  - exact (proj2 (descend_lists_the_given_directories (Inputs.prefixing false true false)
                    ["/r/a"] ["/r/top.txt"] (boot Inputs.nested)) eq_refl).
Defined.

(** ** The failure counter, call by call *)

Section Accounting.

Context {FS : Type} {OS : FileSystem FS}.

(** One [writeFile] adds to the counter one unit if its overwrite check
    trips and one unit for each of its system calls that fails ([os.Rename],
    or each of [os.Create], [os.Open] and [io.Copy]): nothing under dry-run
    but the check, nothing at all when every call succeeds and the check is
    silent. *)
Theorem writeFile_counts_each_failure cfg oldname newname (w : World FS) :
  GoInt.inRange (operationSuccessful w) ->
  exists w',
    writeFile cfg oldname newname w = Returned tt w'
    /\ operationSuccessful w'
       = GoInt.wrap (operationSuccessful w
                     + Z.b2z (guardTrips cfg (fs w) newname)
                     + failedCalls cfg (fs w) oldname newname).
Proof.
  intros Hr.
  unfold writeFile, overwriteGuard, perform, copyFile, renameFile, guardTrips, failedCalls.
  run_unfold. cbv beta iota zeta.
  destruct (succeeded (os_Lstat (fs w) newname)); cbn [andb];
    destruct (forceArg cfg); cbn [Bool.eqb negb Z.b2z];
    cbn [fs stdout stderr operationSuccessful];
    (destruct (dryrunArg cfg); [|destruct (copyArg cfg)]);
    cbn [fs stdout stderr operationSuccessful];
    try (destruct (os_Create (fs w) newname) as [d1 [c|e1]]; cbn;
         destruct (os_Open d1 oldname) as [o|e2]; cbn;
         match goal with |- context [io_Copy ?d ?a ?b] =>
           destruct (io_Copy d a b) as [d2 [u|e3]] end; cbn);
    try (destruct (os_Rename (fs w) oldname newname) as [d [u|e]]; cbn);
    eexists; (split; [reflexivity|]); cbn [operationSuccessful];
    unfold GoInt.add;
    repeat (rewrite wrap_add_wrap || rewrite <- Z.add_assoc);
    rewrite ?Z.add_0_r;
    first [ reflexivity
          | symmetry; apply wrap_inRange; exact Hr
          | f_equal; lia ].
Qed.

(** A transformer that names a file as it is already named has its rename
    stopped at nothing: the overwrite check finds the name taken (by the
    file itself) and, force unset, counts a failure for it.  So it is with
    [lowercaseFiles] on a name that is lowercase already. *)
Theorem lowercaseFiles_on_a_lowercase_name_counts_a_failure cfg f (w : World FS) :
  filepath.Join [filepath.Dir f; GoStrings.ToLower (filepath.Base f)] = f ->
  succeeded (os_Lstat (fs w) f) = true ->
  forceArg cfg = false ->
  exists w' k later,
    lowercaseFiles cfg [f] w = Returned 0 w'
    /\ 1 <= k <= 4
    /\ operationSuccessful w' = GoInt.wrap (operationSuccessful w + k)
    /\ stderr w' = (stderr w ++ guardDiagnostic f :: later)%list.
Proof.
  intros Hsame Hl Hf.
  destruct (perform_counts cfg f f (guardFailure f w))
    as (w' & k & later & Hp & Hk & Hc & He).
  { apply wrap_is_inRange. }
  exists w', (1 + k), later.
  split.
  - unfold lowercaseFiles. cbn [forRange]. rewrite Hsame.
    unfold bind at 1 2.
    rewrite (writeFile_guard_tripped cfg f f w Hl Hf), Hp. reflexivity.
  - split; [lia|].
    cbn [guardFailure operationSuccessful stderr] in Hc, He.
    unfold GoInt.add in Hc. rewrite wrap_add_wrap, <- Z.add_assoc in Hc.
    split; [exact Hc|]. rewrite He, <- app_assoc. reflexivity.
Qed.

End Accounting.

Lemma writeFile_counts_each_failure_witness :
  GoInt.inRange (operationSuccessful (boot Inputs.pair))
  /\ operationSuccessful
       (final (writeFile (Inputs.prefixing false false false)
                 "/home/d/missing" "/home/d/b.txt" (boot Inputs.pair))) = 2.
Proof.
  assert (Hr : GoInt.inRange (operationSuccessful (boot Inputs.pair))).
  { split; intros H; discriminate H. }
  split; [exact Hr|].
  destruct (writeFile_counts_each_failure (Inputs.prefixing false false false)
              "/home/d/missing" "/home/d/b.txt" (boot Inputs.pair) Hr) as (w' & Hw & Hc).
  rewrite Hw. cbn [final]. rewrite Hc. reflexivity.
Defined.

Lemma lowercaseFiles_on_a_lowercase_name_counts_a_failure_witness :
  filepath.Join [filepath.Dir "/home/d/b.txt";
                 GoStrings.ToLower (filepath.Base "/home/d/b.txt")] = "/home/d/b.txt"
  /\ succeeded (os_Lstat (fs (boot Inputs.pair)) "/home/d/b.txt") = true
  /\ forceArg (Inputs.prefixing false true false) = false
  /\ exists w', lowercaseFiles (Inputs.prefixing false true false) ["/home/d/b.txt"]
                  (boot Inputs.pair) = Returned 0 w'
                /\ operationSuccessful w' = 1.
Proof.
  assert (Hsame : filepath.Join [filepath.Dir "/home/d/b.txt";
                                GoStrings.ToLower (filepath.Base "/home/d/b.txt")]
                  = "/home/d/b.txt") by reflexivity.
  assert (Hl : succeeded (os_Lstat (fs (boot Inputs.pair)) "/home/d/b.txt") = true)
    by reflexivity.
  assert (Hf : forceArg (Inputs.prefixing false true false) = false) by reflexivity.
  split; [exact Hsame|]. split; [exact Hl|]. split; [exact Hf|].
  destruct (lowercaseFiles_on_a_lowercase_name_counts_a_failure
              (Inputs.prefixing false true false) "/home/d/b.txt" (boot Inputs.pair)
              Hsame Hl Hf) as (w' & k & later & Hw & _ & _ & _).
  exists w'. split; [exact Hw|].
  assert (Hrun : lowercaseFiles (Inputs.prefixing false true false) ["/home/d/b.txt"]
                   (boot Inputs.pair)
                 = Returned 0 (final (lowercaseFiles (Inputs.prefixing false true false)
                                        ["/home/d/b.txt"] (boot Inputs.pair))))
    by reflexivity.
  rewrite Hw in Hrun at 1. injection Hrun as ->. reflexivity.
Defined.

(** ** The transformer loops *)

Section Loops.

Context {FS : Type} {OS : FileSystem FS}.

(** A loop over a list in two parts is the loop over the first part, then
    the loop over the second from what the first carried out. *)
Lemma forRange_app {A S} (a b : list A) (body : S -> A -> Run FS S) :
  forall (s : S) (w : World FS),
    forRange (a ++ b) s body w = (s' <- forRange a s body ;; forRange b s' body) w.
Proof.
  induction a as [|x a IH]; intros s w; simpl; [reflexivity|].
  unfold bind at 1 2 3. destruct (body s x w) as [s1 w1|code w1]; [|reflexivity].
  rewrite IH. reflexivity.
Qed.

Lemma rename_loop_app cfg (name : string -> string) (a b : list string) (w : World FS) :
  (forRange (a ++ b) tt (fun _ f => writeFile cfg f (name f)) ;; ret 0) w
  = ((forRange a tt (fun _ f => writeFile cfg f (name f)) ;; ret 0) ;;
     (forRange b tt (fun _ f => writeFile cfg f (name f)) ;; ret 0)) w.
Proof.
  unfold bind at 1. rewrite forRange_app. unfold bind.
  destruct (forRange a tt _ w) as [[] w1|code w1]; reflexivity.
Qed.

(** The counter the loop of [indexName] carries out of a list is the one it
    was given, advanced once per file, whether the files could be renamed or
    not. *)
Lemma index_loop_counter cfg newname (names : list string) :
  forall count (w : World FS),
    GoInt.inRange count ->
    exists w',
      forRange names count
        (fun count f =>
           writeFile cfg f (indexFormat (filepath.Dir f) newname count (filepath.Ext f)) ;;
           ret (GoInt.add count 1)) w
      = Returned (GoInt.wrap (count + Z.of_nat (length names))) w'.
Proof.
  induction names as [|f rest IH]; intros count w Hc.
  - exists w. cbn [forRange length Z.of_nat]. rewrite Z.add_0_r, wrap_inRange by exact Hc.
    reflexivity.
  - cbn [forRange]. unfold bind at 1 2.
    destruct (writeFile_returns cfg f
                (indexFormat (filepath.Dir f) newname count (filepath.Ext f)) w)
      as (w1 & Hw).
    rewrite Hw. unfold ret at 1.
    destruct (IH (GoInt.add count 1) w1 (wrap_is_inRange _)) as (w2 & Hrest).
    exists w2. rewrite Hrest. unfold GoInt.add. rewrite wrap_add_wrap.
    do 2 f_equal. cbn [length]. lia.
Qed.

(** Renaming a list in two runs of a transformer, one part after the other,
    is renaming it in one: the five transformers without a counter split
    over a concatenation as they are, and [indexName] does when the second
    run is started at the counter the first would have reached. *)
Theorem transformers_split_over_concatenation rev cfg (a b : list string) (w : World FS) :
  (forall prefix,
     addPrefix cfg (a ++ b) prefix w = (addPrefix cfg a prefix ;; addPrefix cfg b prefix) w)
  /\ (forall suffix,
        addSuffix cfg (a ++ b) suffix w
        = (addSuffix cfg a suffix ;; addSuffix cfg b suffix) w)
  /\ lowercaseFiles cfg (a ++ b) w = (lowercaseFiles cfg a ;; lowercaseFiles cfg b) w
  /\ uppercaseFiles cfg (a ++ b) w = (uppercaseFiles cfg a ;; uppercaseFiles cfg b) w
  /\ lowercaseExtension rev cfg (a ++ b) w
     = (lowercaseExtension rev cfg a ;; lowercaseExtension rev cfg b) w
  /\ (forall newname count,
        GoInt.inRange count ->
        indexName cfg (a ++ b) newname count w
        = (indexName cfg a newname count ;;
           indexName cfg b newname (GoInt.wrap (count + Z.of_nat (length a)))) w).
Proof.
  split; [intros prefix; apply (rename_loop_app cfg)|].
  split; [intros suffix; apply (rename_loop_app cfg)|].
  split; [apply (rename_loop_app cfg)|].
  split; [apply (rename_loop_app cfg)|].
  split.
  - destruct rev.
    + rewrite lowercaseExtension_Renamer_go_idle. unfold bind.
      rewrite !lowercaseExtension_Renamer_go_idle. reflexivity.
    + apply (rename_loop_app cfg lowercaseExtensionName).
  - intros newname count Hc. unfold indexName.
    match goal with |- context [forRange (a ++ b) count ?bd] => set (body := bd) end.
    destruct (index_loop_counter cfg newname a count w Hc) as (w1 & Ha).
    change (forRange a count body w
            = Returned (GoInt.wrap (count + Z.of_nat (length a))) w1) in Ha.
    unfold bind. rewrite forRange_app. unfold bind. rewrite Ha. reflexivity.
Qed.

(** The file at position [k] of the list is given the start number advanced
    [k] times, on three digits at least, under its own directory and with
    its own extension: [indexName] is [writeFile] over the plan, pair after
    pair. *)
Theorem indexName_gives_the_kth_file_start_plus_k cfg names newname count k f
    (w : World FS) :
  GoInt.inRange count ->
  nth_error names k = Some f ->
  indexName cfg names newname count w
  = (writeAll cfg (indexPlan names newname count) ;; ret 0) w
  /\ nth_error (indexPlan names newname count) k
     = Some (f, indexFormat (filepath.Dir f) newname
                  (GoInt.wrap (count + Z.of_nat k)) (filepath.Ext f))
  /\ length (indexPlan names newname count) = length names.
Proof.
  intros Hc Hk. split; [apply indexName_follows_plan|].
  split; [apply indexPlan_nth; assumption | apply indexPlan_length].
Qed.

End Loops.

Lemma transformers_split_over_concatenation_witness :
  GoInt.inRange 998
  /\ indexName (Inputs.prefixing false true false)
       (["/home/d/a.TXT"] ++ ["/home/d/b.txt"]) "img" 998 (boot Inputs.pair)
     = (indexName (Inputs.prefixing false true false) ["/home/d/a.TXT"] "img" 998 ;;
        indexName (Inputs.prefixing false true false) ["/home/d/b.txt"] "img" 999)
         (boot Inputs.pair).
Proof.
  assert (Hc : GoInt.inRange 998) by (split; intros H; discriminate H).
  split; [exact Hc|].
  destruct (transformers_split_over_concatenation Renamer_go
              (Inputs.prefixing false true false)
              ["/home/d/a.TXT"] ["/home/d/b.txt"] (boot Inputs.pair))
    as (_ & _ & _ & _ & _ & Hindex).
  exact (Hindex "img" 998 Hc).
Defined.

Lemma indexName_gives_the_kth_file_start_plus_k_witness :
  GoInt.inRange 5
  /\ nth_error ["a.txt"; "b.txt"; "c.txt"] 2 = Some "c.txt"
  /\ nth_error (indexPlan ["a.txt"; "b.txt"; "c.txt"] "img" 5) 2
     = Some ("c.txt", "./img007.txt").
Proof.
  assert (Hc : GoInt.inRange 5) by (split; intros H; discriminate H).
  split; [exact Hc|]. split; [reflexivity|].
  destruct (indexName_gives_the_kth_file_start_plus_k (Inputs.prefixing false true false)
              ["a.txt"; "b.txt"; "c.txt"] "img" 5 2 "c.txt" (boot Inputs.pair) Hc eq_refl)
    as (_ & Hnth & _).
  rewrite Hnth. reflexivity.
Defined.

(** ** The names the transformers compute *)

Section Names.

Import GoStrings.

Lemma chars_append (s t : string) : chars (s ++ t) = (chars s ++ chars t)%list.
Proof. unfold chars. induction s as [|c s IH]; simpl; [|rewrite IH]; reflexivity. Qed.

Lemma str_app (l m : list ascii) : str (l ++ m) = str l ++ str m.
Proof. unfold str. induction l as [|c l IH]; simpl; [|rewrite IH]; reflexivity. Qed.

Lemma length_str (l : list ascii) : String.length (str l) = List.length l.
Proof. unfold str. induction l as [|c l IH]; simpl; [|rewrite IH]; reflexivity. Qed.

Lemma length_chars (s : string) : List.length (chars s) = String.length s.
Proof. unfold chars. induction s as [|c s IH]; simpl; [|rewrite IH]; reflexivity. Qed.

Lemma length_append (s t : string) :
  String.length (s ++ t) = (String.length s + String.length t)%nat.
Proof. induction s as [|c s IH]; simpl; [|rewrite IH]; reflexivity. Qed.

Lemma append_empty (s : string) : s ++ "" = s.
Proof. induction s as [|c s IH]; simpl; [|rewrite IH]; reflexivity. Qed.

Lemma prefix_append (p q : string) : String.prefix p (p ++ q) = true.
Proof.
  induction p as [|c p IH]; simpl.
  - destruct q; reflexivity.
  - destruct (ascii_dec c c) as [_|Hc]; [exact IH | contradiction Hc; reflexivity].
Qed.

Lemma prefix_length (p s : string) :
  String.prefix p s = true -> (String.length p <= String.length s)%nat.
Proof.
  revert s. induction p as [|c p IH]; intros s H; simpl; [lia|].
  destruct s as [|d s]; simpl in H; [discriminate H|].
  destruct (ascii_dec c d); [|discriminate H].
  apply IH in H. simpl. lia.
Qed.

Lemma substring_append (s t : string) : String.substring 0 (String.length s) (s ++ t) = s.
Proof.
  induction s as [|c s IH]; simpl.
  - destruct t; reflexivity.
  - rewrite IH. reflexivity.
Qed.

Lemma reversed_append (s t : string) :
  str (rev (chars (s ++ t))) = str (rev (chars t)) ++ str (rev (chars s)).
Proof. rewrite chars_append, rev_app_distr, str_app. reflexivity. Qed.

Lemma length_reversed (s : string) : String.length (str (rev (chars s))) = String.length s.
Proof. rewrite length_str, length_rev, length_chars. reflexivity. Qed.

Lemma HasSuffix_append (s suf : string) : HasSuffix (s ++ suf) suf = true.
Proof. unfold HasSuffix. rewrite reversed_append. apply prefix_append. Qed.

Lemma HasSuffix_length (s suf : string) :
  HasSuffix s suf = true -> (String.length suf <= String.length s)%nat.
Proof.
  unfold HasSuffix. intros H. apply prefix_length in H.
  rewrite !length_reversed in H. exact H.
Qed.

(** [strings.TrimSuffix] takes back what was appended. *)
Lemma TrimSuffix_append (s suf : string) : TrimSuffix (s ++ suf) suf = s.
Proof.
  unfold TrimSuffix. rewrite HasSuffix_append, length_append.
  replace (String.length s + String.length suf - String.length suf)%nat
    with (String.length s) by lia.
  apply substring_append.
Qed.

Lemma lastElement_keeps_acc (r acc : list ascii) :
  exists pre, filepath.lastElement r acc = (pre ++ acc)%list.
Proof.
  revert acc. induction r as [|c r IH]; intros acc; simpl.
  - exists []. reflexivity.
  - destruct (filepath.IsPathSeparator c); [exists []; reflexivity|].
    destruct (IH (c :: acc)) as (pre & Hp). exists (pre ++ [c])%list.
    rewrite Hp, <- app_assoc. reflexivity.
Qed.

Lemma lastElement_ends_with_extScan (r acc : list ascii) :
  exists pre, filepath.lastElement r acc = (pre ++ filepath.extScan r acc)%list.
Proof.
  revert acc. induction r as [|c r IH]; intros acc; simpl.
  - exists acc. rewrite app_nil_r. reflexivity.
  - destruct (filepath.IsPathSeparator c); [exists acc; rewrite app_nil_r; reflexivity|].
    destruct (Ascii.eqb c "."%char); [apply lastElement_keeps_acc | apply IH].
Qed.

(** The extension is the end of the base name. *)
Lemma Base_ends_with_Ext (f : string) :
  exists stem, filepath.Base f = stem ++ filepath.Ext f.
Proof.
  unfold filepath.Base, filepath.Ext.
  destruct (String.eqb f "") eqn:He.
  - apply String.eqb_eq in He. subst f. exists ".". reflexivity.
  - destruct (rev (chars f)) as [|c r] eqn:Hr.
    + exists "/". reflexivity.
    + cbn [filepath.dropSeparators filepath.extScan].
      destruct (filepath.IsPathSeparator c) eqn:Hc.
      * match goal with |- exists stem, ?b = _ => exists b end.
        symmetry. apply append_empty.
      * destruct (lastElement_ends_with_extScan (c :: r) []) as (pre & Hp).
        destruct (lastElement_keeps_acc r [c]) as (pre' & Hp').
        assert (Hlast : filepath.lastElement (c :: r) [] = (pre' ++ [c])%list).
        { cbn [filepath.lastElement]. rewrite Hc. exact Hp'. }
        assert (Hne : String.eqb (str (filepath.lastElement (c :: r) [])) "" = false).
        { rewrite Hlast. apply String.eqb_neq. intros H.
          apply (f_equal String.length) in H. rewrite length_str, length_app in H.
          simpl in H. lia. }
        rewrite Hne. exists (str pre).
        rewrite Hp at 1. rewrite str_app.
        cbn [filepath.extScan]. rewrite Hc. reflexivity.
Qed.

End Names.

Section ComputedNames.

Context {FS : Type} {OS : FileSystem FS}.

Import GoStrings.

(** [addSuffix] cuts the base name in a stem and the extension, loses
    nothing of it, and puts the suffix between the two: the file is renamed,
    in its directory, to stem, suffix, extension. *)
Theorem addSuffix_puts_the_suffix_before_the_extension cfg f suffix (w : World FS) :
  exists stem,
    filepath.Base f = stem ++ filepath.Ext f
    /\ TrimSuffix (filepath.Base f) (filepath.Ext f) = stem
    /\ addSuffix cfg [f] suffix w
       = (writeFile cfg f (filepath.Join [filepath.Dir f; stem ++ suffix ++ filepath.Ext f]) ;;
          ret 0) w.
Proof.
  destruct (Base_ends_with_Ext f) as (stem & Hb).
  exists stem. split; [exact Hb|].
  assert (Ht : TrimSuffix (filepath.Base f) (filepath.Ext f) = stem).
  { rewrite Hb. apply TrimSuffix_append. }
  split; [exact Ht|].
  unfold addSuffix. cbn [forRange]. cbv zeta. rewrite Ht. unfold bind, ret.
  destruct (writeFile cfg f _ w) as [[] w1|code w1]; reflexivity.
Qed.

(** The name [lowercaseExtension] computes.  The second [TrimSuffix] takes
    the base name off the extension, which leaves the extension whole unless
    the two are the same string: for a file whose base name is its extension
    (a dot file such as .bashrc) both parts come out empty and the name is
    the directory joined with nothing; for every other file it is the stem
    followed by the extension in lower case. *)
Theorem lowercaseExtensionName_cases f :
  (filepath.Base f = filepath.Ext f ->
   lowercaseExtensionName f = filepath.Join [filepath.Dir f; ""])
  /\ (filepath.Base f <> filepath.Ext f ->
      exists stem,
        filepath.Base f = stem ++ filepath.Ext f
        /\ lowercaseExtensionName f
           = filepath.Join [filepath.Dir f; stem ++ ToLower (filepath.Ext f)]).
Proof.
  unfold lowercaseExtensionName. cbv zeta. split.
  - intros Heq. rewrite Heq.
    pose proof (TrimSuffix_append "" (filepath.Ext f)) as Ht. cbn [append] in Ht.
    rewrite Ht. reflexivity.
  - intros Hne. destruct (Base_ends_with_Ext f) as (stem & Hb).
    exists stem. split; [exact Hb|].
    assert (Hno : HasSuffix (filepath.Ext f) (filepath.Base f) = false).
    { destruct (HasSuffix (filepath.Ext f) (filepath.Base f)) eqn:Hs; [|reflexivity].
      apply HasSuffix_length in Hs. rewrite Hb, length_append in Hs.
      destruct stem as [|c stem]; [|simpl in Hs; lia].
      contradiction Hne. }
    unfold TrimSuffix at 2. rewrite Hno.
    rewrite Hb at 1. rewrite TrimSuffix_append. reflexivity.
Qed.

Lemma length_zeros (n : nat) : String.length (zeros n) = n.
Proof. induction n as [|n IH]; simpl; [|rewrite IH]; reflexivity. Qed.

Lemma length_padLeft (width : nat) (s : string) :
  (width <= String.length (padLeft width s))%nat.
Proof. unfold padLeft. rewrite length_append, length_zeros. lia. Qed.

Lemma zeros_are_leading_digits (k : nat) (d : Decimal.uint) :
  exists d', zeros k ++ NilEmpty.string_of_uint d = NilEmpty.string_of_uint d'
             /\ Z.of_uint d' = Z.of_uint d.
Proof.
  induction k as [|k (d' & Hs & Hv)]; simpl.
  - exists d. split; reflexivity.
  - exists (Decimal.D0 d'). rewrite Hs. split; [reflexivity | exact Hv].
Qed.

Lemma digits_are_decimal (n : N) (k : nat) :
  exists d, padLeft k (digits n) = NilEmpty.string_of_uint d
            /\ Z.of_uint d = Z.of_N n.
Proof.
  unfold padLeft, digits.
  assert (Hd : exists d0, NilZero.string_of_uint (N.to_uint n) = NilEmpty.string_of_uint d0
                          /\ Z.of_uint d0 = Z.of_N n).
  { pose proof (DecimalN.Unsigned.of_to n) as Hof.
    destruct (N.to_uint n) as [|u|u|u|u|u|u|u|u|u|u] eqn:Hu;
      [exists (Decimal.D0 Decimal.Nil) | eexists ..];
      (split; [reflexivity|]); unfold Z.of_uint; f_equal; exact Hof. }
  destruct Hd as (d0 & Hs & Hv). rewrite Hs.
  destruct (zeros_are_leading_digits (k - String.length (NilEmpty.string_of_uint d0)) d0)
    as (d & Hz & Hzv).
  exists d. split; [exact Hz | congruence].
Qed.

(** The counter can be read back from what [%03d] prints of it, whatever
    its sign and size, and takes three characters at least; so within one
    directory, base name and extension, two different counters never give
    the same destination. *)
Theorem index_names_tell_counters_apart dirname newname ext (a b : Z) :
  read_03d (fmt_03d a) = Some a
  /\ (3 <= String.length (fmt_03d a))%nat
  /\ (a <> b -> indexFormat dirname newname a ext <> indexFormat dirname newname b ext).
Proof.
  assert (Hread : forall z, read_03d (fmt_03d z) = Some z).
  { intros z. unfold read_03d, fmt_03d. destruct (z <? 0) eqn:Hz.
    - destruct (digits_are_decimal (Z.to_N (- z)) 2) as (d & Hs & Hv). rewrite Hs.
      change ("-" ++ NilEmpty.string_of_uint d)
        with (NilEmpty.string_of_int (Decimal.Neg d)).
      rewrite NilEmpty.isi. cbn [option_map Z.of_int]. f_equal.
      rewrite Hv. apply Z.ltb_lt in Hz. lia.
    - destruct (digits_are_decimal (Z.to_N z) 3) as (d & Hs & Hv). rewrite Hs.
      change (NilEmpty.string_of_uint d) with (NilEmpty.string_of_int (Decimal.Pos d)).
      rewrite NilEmpty.isi. cbn [option_map Z.of_int]. f_equal.
      rewrite Hv. apply Z.ltb_ge in Hz. lia. }
  split; [apply Hread|]. split.
  - unfold fmt_03d. destruct (a <? 0).
    + cbn [append String.length]. pose proof (length_padLeft 2 (digits (Z.to_N (- a)))). lia.
    + apply length_padLeft.
  - intros Hab Heq. apply Hab. unfold indexFormat in Heq.
    assert (Hfmt : fmt_03d a = fmt_03d b).
    { apply (f_equal chars) in Heq. rewrite !chars_append in Heq.
      apply app_inv_head in Heq. apply app_inv_head in Heq. apply app_inv_head in Heq.
      apply app_inv_tail in Heq.
      rewrite <- (string_of_list_ascii_of_string (fmt_03d a)),
              <- (string_of_list_ascii_of_string (fmt_03d b)).
      unfold chars in Heq. rewrite Heq. reflexivity. }
    pose proof (Hread a) as Ha. rewrite Hfmt, Hread in Ha. injection Ha as ->. reflexivity.
Qed.

End ComputedNames.

Lemma lowercaseExtensionName_cases_witness :
  filepath.Base "/home/u/.bashrc" = filepath.Ext "/home/u/.bashrc"
  /\ lowercaseExtensionName "/home/u/.bashrc" = "/home/u"
  /\ filepath.Base "/docs/MyFile.TXT" <> filepath.Ext "/docs/MyFile.TXT"
  /\ exists stem,
       filepath.Base "/docs/MyFile.TXT" = stem ++ filepath.Ext "/docs/MyFile.TXT"
       /\ lowercaseExtensionName "/docs/MyFile.TXT"
          = filepath.Join [filepath.Dir "/docs/MyFile.TXT";
                           stem ++ GoStrings.ToLower (filepath.Ext "/docs/MyFile.TXT")].
Proof.
  assert (Hdot : filepath.Base "/home/u/.bashrc" = filepath.Ext "/home/u/.bashrc")
    by reflexivity.
  assert (Hfile : filepath.Base "/docs/MyFile.TXT" <> filepath.Ext "/docs/MyFile.TXT")
    by discriminate.
  split; [exact Hdot|]. split.
  - rewrite (proj1 (lowercaseExtensionName_cases "/home/u/.bashrc") Hdot). reflexivity.
  - split; [exact Hfile|].
    exact (proj2 (lowercaseExtensionName_cases "/docs/MyFile.TXT") Hfile).
Defined.

Lemma index_names_tell_counters_apart_witness :
  5 <> 1005
  /\ indexFormat "/pics" "img" 5 ".txt" <> indexFormat "/pics" "img" 1005 ".txt".
Proof.
  assert (Hab : 5 <> 1005) by discriminate.
  split; [exact Hab|].
  destruct (index_names_tell_counters_apart "/pics" "img" ".txt" 5 1005) as (_ & _ & Hd).
  exact (Hd Hab).
Defined.

(** ** What a run reports *)

Section Reports.

Context {FS : Type} {OS : FileSystem FS} {R : Type} {RE : Regexp R}.

(** [writeFile] prints at most one line on the output stream: the dry-run
    line under -n (worded as a rename also when -c is given), the copy line
    when [io.Copy] came back without error, the rename line when [os.Rename]
    did, and nothing when the last call failed. *)
Theorem writeFile_reports_what_was_done cfg oldname newname (w : World FS) :
  exists w',
    writeFile cfg oldname newname w = Returned tt w'
    /\ stdout w'
       = (stdout w ++ match reportedLine cfg (fs w) oldname newname with
                      | Some line => [line]
                      | None => []
                      end)%list.
Proof.
  unfold writeFile, overwriteGuard, perform, copyFile, renameFile, reportedLine, dryRunLine.
  run_unfold. cbv beta iota zeta.
  destruct (succeeded (os_Lstat (fs w) newname) && Bool.eqb (forceArg cfg) false);
    cbn [fs stdout stderr operationSuccessful];
    (destruct (dryrunArg cfg); [|destruct (copyArg cfg)]);
    cbn [fs stdout stderr operationSuccessful];
    try (destruct (os_Create (fs w) newname) as [d1 [c|e1]]; cbn;
         destruct (os_Open d1 oldname) as [o|e2]; cbn;
         match goal with |- context [io_Copy ?d ?a ?b] =>
           destruct (io_Copy d a b) as [d2 [u|e3]] end; cbn);
    try (destruct (os_Rename (fs w) oldname newname) as [d [u|e]]; cbn);
    eexists; (split; [reflexivity|]); cbn [stdout]; rewrite ?app_nil_r; reflexivity.
Qed.

(** With -l and -u and none of prefix, suffix and index, the transformation
    stage is the usage exit: a run with the two case flags alone never
    changes the disk or the failure counter. *)
Theorem both_case_flags_alone_change_nothing rev cfg (w : World FS) :
  prefixArg cfg = "" -> suffixArg cfg = "" -> indexArg cfg = "" ->
  lowerArg cfg = true -> upperArg cfg = true ->
  (forall files (w0 : World FS),
     transform rev cfg files w0
     = Exited 2
         (complained usageMessage
            (complained ("Can't use both lowercase and uppercase, choose one only!" ++ LF)
               w0)))
  /\ fs (final (main rev cfg w)) = fs w
  /\ operationSuccessful (final (main rev cfg w)) = operationSuccessful w.
Proof.
  intros Hp Hs Hi Hl Hu.
  assert (Ht : forall files (w0 : World FS),
            transform rev cfg files w0
            = Exited 2
                (complained usageMessage
                   (complained
                      ("Can't use both lowercase and uppercase, choose one only!" ++ LF)
                      w0))).
  { intros files w0. unfold transform. rewrite Hp, Hs, Hi, Hl, Hu. reflexivity. }
  split; [exact Ht|].
  assert (H : (fun w : World FS => (fs w, operationSuccessful w)) (final (main rev cfg w))
              = (fs w, operationSuccessful w)).
  { apply (stays_main _ _ disk_and_counter_blindToStreams rev cfg).
    intros files w0. rewrite Ht. reflexivity. }
  cbv beta in H. injection H as H1 H2. split; assumption.
Qed.

End Reports.

Lemma both_case_flags_alone_change_nothing_witness :
  prefixArg Inputs.bothCases = "" /\ suffixArg Inputs.bothCases = ""
  /\ indexArg Inputs.bothCases = "" /\ lowerArg Inputs.bothCases = true
  /\ upperArg Inputs.bothCases = true
  /\ fs (final (Sample.run (main Renamer_go Inputs.bothCases) Inputs.pair)) = Inputs.pair.
Proof.
  repeat (split; [reflexivity|]).
  destruct (both_case_flags_alone_change_nothing (R := Sample.Pattern) Renamer_go
              Inputs.bothCases (boot Inputs.pair) eq_refl eq_refl eq_refl eq_refl eq_refl)
    as (_ & Hfs & _).
  exact Hfs.
Defined.

(** The run -u -x ^z on /home/d, where no name starts with z. *)
Lemma main_no_match_reports_failure_witness :
  regexpArg (Inputs.upperUnmatched false) <> ""
  /\ forceArg (Inputs.upperUnmatched false) = false
  /\ exists w',
       Sample.run (main Renamer_go (Inputs.upperUnmatched false)) Inputs.pair
       = Returned tt w'
       /\ fs w' = Inputs.pair
       /\ stdout w' = [notAllRenamed].
Proof.
  assert (Hne : regexpArg (Inputs.upperUnmatched false) <> "") by discriminate.
  assert (Hre : regexp_Compile (regexpArg (Inputs.upperUnmatched false))
                = Ok {| Sample.fromStart := true; Sample.toEnd := false;
                        Sample.symbols := [Some "z"%char] |}) by reflexivity.
  assert (Hlist : getFilesFromDir (targetArg (Inputs.upperUnmatched false)) (boot Inputs.pair)
                  = Returned ([], ["/home/d/a.TXT"; "/home/d/b.txt"]) (boot Inputs.pair))
    by reflexivity.
  assert (Hd : descend (Inputs.upperUnmatched false) [] ["/home/d/a.TXT"; "/home/d/b.txt"]
                 (boot Inputs.pair)
               = Returned ([], ["/home/d/a.TXT"; "/home/d/b.txt"]) (boot Inputs.pair))
    by reflexivity.
  assert (Hnone : forall f, In f ["/home/d/a.TXT"; "/home/d/b.txt"] ->
                    MatchString {| Sample.fromStart := true; Sample.toEnd := false;
                                   Sample.symbols := [Some "z"%char] |}
                      (filepath.Base f) = false).
  { intros f [<-|[<-|[]]]; reflexivity. }
  assert (Hf : forceArg (Inputs.upperUnmatched false) = false) by reflexivity.
  split; [exact Hne|]. split; [exact Hf|].
  destruct (main_no_match_reports_failure Renamer_go (Inputs.upperUnmatched false)
              _ _ _ _ _ _ _ _ Hne Hre Hlist Hd Hnone Hf) as (w' & Hm & Hfs & Hout & _).
  exists w'. split; [exact Hm|]. split; [exact Hfs | exact Hout].
Defined.
